(** * butlerG: the database access layer

    A shallow embedding of the database access layer of butlerG
    ([src/butler_G/utils.py], [src/butler_G/db.py],
    [src/butler_G/account_management.py], [src/butler_G/log_expense.py]).

    The relational store and psycopg2 are observed through a log of the
    operations the code issues on physical sessions ([PgEvent]); the
    behaviour of the server (what a statement returns, or which error it
    raises) is an oracle that the theorems quantify over. *)

From Stdlib Require Import List String Bool Arith Lia.
Import ListNotations.
Open Scope string_scope.

(* ------------------------------------------------------------------ *)
(** ** psycopg2, as seen by the code *)

(** [psycopg2.extensions.TRANSACTION_STATUS_*] *)
Inductive TxStatus :=
| TRANSACTION_STATUS_IDLE
| TRANSACTION_STATUS_ACTIVE
| TRANSACTION_STATUS_INTRANS
| TRANSACTION_STATUS_INERROR
| TRANSACTION_STATUS_UNKNOWN.

Definition TxStatus_eqb (a b : TxStatus) : bool :=
  match a, b with
  | TRANSACTION_STATUS_IDLE, TRANSACTION_STATUS_IDLE
  | TRANSACTION_STATUS_ACTIVE, TRANSACTION_STATUS_ACTIVE
  | TRANSACTION_STATUS_INTRANS, TRANSACTION_STATUS_INTRANS
  | TRANSACTION_STATUS_INERROR, TRANSACTION_STATUS_INERROR
  | TRANSACTION_STATUS_UNKNOWN, TRANSACTION_STATUS_UNKNOWN => true
  | _, _ => false
  end.

(** The arguments of [psycopg2.connect( *args, **kwargs)]. *)
Record ConnArgs := {
  args : list string;
  kwargs : list (string * string)
}.

(** A physical session: a psycopg2 connection object.  [pg_id] tells
    distinct physical sessions apart. *)
Record PgConn := {
  pg_id : nat;
  pg_args : ConnArgs;
  pg_closed : bool;
  pg_status : TxStatus
}.

(** Statement parameters ([query_data]): a mapping from names to values,
    or [None]. *)
Inductive Value :=
| VInt (z : nat)
| VStr (s : string)
| VNone.

Definition Params := option (list (string * Value)).

Definition Row := list Value.

(** What the code does to physical sessions, in order. *)
Inductive PgEvent :=
| EvConnect (id : nat) (a : ConnArgs)
| EvClose (id : nat)
| EvRollback (id : nat)
| EvCommit (id : nat)
| EvCursor (id : nat)
| EvExecute (id : nat) (query : string) (query_data : Params)
| EvFetchall (id : nat)
| EvCursorClose (id : nat).

(** The outside world: the next session identity and the log. *)
Record World := {
  next_id : nat;
  log : list PgEvent
}.

Definition emit (w : World) (e : PgEvent) : World :=
  {| next_id := next_id w; log := log w ++ [e] |}.

(** [psycopg2.connect( *args, **kwargs)]: a fresh, open, idle session. *)
Definition psycopg2_connect (a : ConnArgs) (w : World) : PgConn * World :=
  let n := next_id w in
  ({| pg_id := n; pg_args := a; pg_closed := false;
      pg_status := TRANSACTION_STATUS_IDLE |},
   {| next_id := S n; log := log w ++ [EvConnect n a] |}).

(** [conn.close()] *)
Definition pg_close (c : PgConn) (w : World) : PgConn * World :=
  ({| pg_id := pg_id c; pg_args := pg_args c; pg_closed := true;
      pg_status := pg_status c |}, emit w (EvClose (pg_id c))).

(** [conn.rollback()]: the session is idle afterwards. *)
Definition pg_rollback (c : PgConn) (w : World) : PgConn * World :=
  ({| pg_id := pg_id c; pg_args := pg_args c; pg_closed := pg_closed c;
      pg_status := TRANSACTION_STATUS_IDLE |}, emit w (EvRollback (pg_id c))).

(** [conn.commit()]: the session is idle afterwards. *)
Definition pg_commit (c : PgConn) (w : World) : PgConn * World :=
  ({| pg_id := pg_id c; pg_args := pg_args c; pg_closed := pg_closed c;
      pg_status := TRANSACTION_STATUS_IDLE |}, emit w (EvCommit (pg_id c))).

(* ------------------------------------------------------------------ *)
(** ** [utils.ConnWithRecon] *)

Module ConnWithRecon.

(** The instance: [self.conn], [self.init_args], [self.init_kwargs]. *)
Record t := {
  conn : PgConn;
  init_args : list string;
  init_kwargs : list (string * string)
}.

Definition init_params (self : t) : ConnArgs :=
  {| args := init_args self; kwargs := init_kwargs self |}.

Definition set_conn (self : t) (c : PgConn) : t :=
  {| conn := c; init_args := init_args self; init_kwargs := init_kwargs self |}.

(** [__init__(self, *args, **kwargs)] *)
Definition __init__ (a : list string) (kw : list (string * string)) (w : World)
  : t * World :=
  let '(c, w1) := psycopg2_connect {| args := a; kwargs := kw |} w in
  ({| conn := c; init_args := a; init_kwargs := kw |}, w1).

(** [reconnect(self)] *)
Definition reconnect (self : t) (w : World) : t * World :=
  let '(c, w1) := psycopg2_connect (init_params self) w in
  (set_conn self c, w1).

(** The health check: the body of [__getattr__] before its [return]. *)
Definition health_check (self : t) (w : World) : t * World :=
  if pg_closed (conn self) then reconnect self w
  else
    let status := pg_status (conn self) in
    if TxStatus_eqb status TRANSACTION_STATUS_UNKNOWN then
      let '(c1, w1) := pg_close (conn self) w in
      reconnect (set_conn self c1) w1
    else if negb (TxStatus_eqb status TRANSACTION_STATUS_IDLE) then
      let '(c1, w1) := pg_rollback (conn self) w in
      (set_conn self c1, w1)
    else (self, w).

(** An attribute of a physical session: [getattr(self.conn, attr)]. *)
Record BoundAttr := {
  owner : nat;
  attr_name : string
}.

(** [__getattr__(self, attr)] *)
Definition __getattr__ (self : t) (attr : string) (w : World)
  : t * World * BoundAttr :=
  let '(self1, w1) := health_check self w in
  (self1, w1, {| owner := pg_id (conn self1); attr_name := attr |}).

(** [commit(self)]: [return self.conn.commit()]. *)
Definition commit (self : t) (w : World) : t * World :=
  let '(c1, w1) := pg_commit (conn self) w in
  (set_conn self c1, w1).

(** Python attribute lookup on an instance: the instance dictionary, then
    the class (and [object]); [__getattr__] is called only when both miss. *)
Definition instance_dict : list string := ["conn"; "init_args"; "init_kwargs"].
Definition class_dict : list string :=
  ["__init__"; "__getattr__"; "commit"; "reconnect"].
Definition object_dict : list string :=
  ["__class__"; "__dict__"; "__doc__"; "__module__"; "__repr__"; "__str__";
   "__eq__"; "__hash__"; "__setattr__"; "__getattribute__"; "__delattr__"].

Definition found_normally (name : string) : bool :=
  existsb (String.eqb name) (instance_dict ++ class_dict ++ object_dict).

Inductive Resolution := Normal | ViaGetattr.

Definition resolve (name : string) : Resolution :=
  if found_normally name then Normal else ViaGetattr.

End ConnWithRecon.

(** Invoking an operation [name] on a physical session. *)
Definition session_op (c : PgConn) (name : string) (w : World) : PgConn * World :=
  if String.eqb name "commit" then pg_commit c w
  else if String.eqb name "rollback" then pg_rollback c w
  else if String.eqb name "close" then pg_close c w
  else if String.eqb name "cursor" then (c, emit w (EvCursor (pg_id c)))
  else (c, w).

(* ------------------------------------------------------------------ *)
(** ** Statement execution *)

(** psycopg2's exception classes met by the code.  Only
    [OperationalError] is a connectivity error. *)
Inductive DbError :=
| OperationalError (msg : string)
| ProgrammingError (msg : string)
| IntegrityError (msg : string)
| DataError (msg : string)
| InterfaceError (msg : string).

Definition is_operational (e : DbError) : bool :=
  match e with OperationalError _ => true | _ => false end.

(** Calling operation [name] on a physical session: psycopg2 raises
    [InterfaceError] for [commit()], [rollback()] and [cursor()] on a
    closed session; [close()] on a closed session does nothing. *)
Definition session_call (c : PgConn) (name : string) (w : World)
  : PgConn * World * option DbError :=
  if pg_closed c then
    if existsb (String.eqb name) ["commit"; "rollback"; "cursor"]
    then (c, w, Some (InterfaceError "connection already closed"))
    else (c, w, None)
  else let '(c1, w1) := session_op c name w in (c1, w1, None).

Module Logical.
Import ConnWithRecon.

(** [_CONN.name(...)] on the logical connection: Python resolves [name]
    on the wrapper first; only a miss goes through [__getattr__], whose
    result (an attribute of the physical session) is then called.  The
    last component is the exception the call raises, if any. *)
Definition invoke (self : t) (name : string) (w : World)
  : t * World * option DbError :=
  match resolve name with
  | Normal =>
      if String.eqb name "commit" then
        (* commit(self): return self.conn.commit() *)
        let '(c1, w1, r) := session_call (conn self) "commit" w in
        (set_conn self c1, w1, r)
      else if String.eqb name "reconnect" then
        let '(s1, w1) := reconnect self w in (s1, w1, None)
      else (self, w, None)
  | ViaGetattr =>
      let '(s1, w1, b) := __getattr__ self name w in
      let '(c2, w2, r) := session_call (conn s1) (attr_name b) w1 in
      (set_conn s1 c2, w2, r)
  end.

(** The same operation, run after the health check. *)
Definition health_checked (self : t) (name : string) (w : World)
  : t * World * option DbError :=
  let '(s1, w1) := health_check self w in
  let '(c2, w2, r) := session_call (conn s1) name w1 in
  (set_conn s1 c2, w2, r).

End Logical.

(** What [cursor.execute] meets on the server: rows ready to be fetched,
    or an exception. *)
Inductive ExecOutcome :=
| Rows (rs : list Row)
| Raise (e : DbError).

(** The server's behaviour: the outcome of executing a statement, given
    everything the code did before. *)
Definition Oracle := list PgEvent -> string -> Params -> ExecOutcome.

(** [cursor.execute(query, query_data)] on session [c]. *)
Definition pg_execute (db : Oracle) (c : PgConn) (query : string)
    (query_data : Params) (w : World) : PgConn * World * ExecOutcome :=
  let o := db (log w) query query_data in
  let st := match o with
            | Rows _ => TRANSACTION_STATUS_INTRANS
            | Raise e => if is_operational e then TRANSACTION_STATUS_UNKNOWN
                         else TRANSACTION_STATUS_INERROR
            end in
  ({| pg_id := pg_id c; pg_args := pg_args c; pg_closed := pg_closed c;
      pg_status := st |},
   emit w (EvExecute (pg_id c) query query_data), o).

(** Python's [str] of a non-negative integer. *)
Fixpoint str_of_nat_aux (fuel n : nat) (acc : string) : string :=
  match fuel with
  | O => acc
  | S f =>
      let acc' := String (Ascii.ascii_of_nat (48 + n mod 10)) acc in
      if Nat.ltb n 10 then acc' else str_of_nat_aux f (n / 10) acc'
  end.

Definition str_of_nat (n : nat) : string := str_of_nat_aux (S n) n "".

(** A Python call that returns a value or raises. *)
Inductive PyResult (A : Type) :=
| Ok (a : A)
| Err (e : DbError).
Arguments Ok {A} a.
Arguments Err {A} e.

(** [utils.execute_query(conn, query, query_data=None, commit=False,
    fetch=False)] on a [ConnWithRecon]; the [run_async] promise is
    resolved, so [.result()] returns the value or re-raises. *)
Definition execute_query (db : Oracle) (conn : ConnWithRecon.t) (query : string)
    (query_data : Params) (commit fetch : bool) (w : World)
    : ConnWithRecon.t * World * PyResult (option (list Row)) :=
  (* cursor = conn.cursor() *)
  let '(s1, w1, _) := ConnWithRecon.__getattr__ conn "cursor" w in
  let c1 := ConnWithRecon.conn s1 in
  let w2 := emit w1 (EvCursor (pg_id c1)) in
  (* cursor.execute(query, query_data) *)
  let '(c3, w3, o) := pg_execute db c1 query query_data w2 in
  let s3 := ConnWithRecon.set_conn s1 c3 in
  match o with
  | Raise e => (s3, w3, Err e)
  | Rows rs =>
      (* data = cursor.fetchall() if fetch else None *)
      let '(data, w4) := if fetch then (Some rs, emit w3 (EvFetchall (pg_id c3)))
                         else (None, w3) in
      (* cursor.close() *)
      let w5 := emit w4 (EvCursorClose (pg_id c3)) in
      (* if commit: conn.commit() *)
      let '(s6, w6) := if commit then ConnWithRecon.commit s3 w5 else (s3, w5) in
      (s6, w6, Ok data)
  end.

(** [log_expense.fetch_txns(cat=None, n_txn=8)]: the statement text built
    with [str.format]; [cat] is [None] or a string, and Python's [if cat]
    is false for [None] and for the empty string. *)
Definition truthy (cat : option string) : bool :=
  match cat with Some s => negb (String.eqb s "") | None => false end.

Definition nl : string := String (Ascii.ascii_of_nat 10) "".

Definition fetch_txns_query (cat : option string) (n_txn : nat) : string :=
  let cat_part := if truthy cat then "" else "category, " in
  let where_part :=
    match cat with
    | Some c => if truthy cat then "WHERE category LIKE '" ++ c ++ "'" else ""
    | None => ""
    end in
  nl ++ "    SELECT tx_timestamp, amount, " ++ cat_part ++ "notes" ++ nl ++
  "    FROM spend_log" ++ nl ++
  "    " ++ where_part ++ nl ++
  "    ORDER BY tx_timestamp DESC" ++ nl ++
  "    LIMIT " ++ str_of_nat n_txn ++ ";" ++ nl ++ "    ".

Definition fetch_txns (db : Oracle) (conn : ConnWithRecon.t) (cat : option string)
    (n_txn : nat) (w : World) :=
  execute_query db conn (fetch_txns_query cat n_txn) None false true w.

(** [log_expense.get_amount]'s first statement, which binds the category
    as a parameter. *)
Definition get_amount_query : string :=
  "SELECT SUM(amount) FROM spend_log " ++
  "WHERE category=%(category)s " ++
  "AND tx_timestamp >= date_trunc('month', localtimestamp);".

Definition get_amount_spend (db : Oracle) (conn : ConnWithRecon.t) (cat : string)
    (w : World) :=
  execute_query db conn get_amount_query (Some [("category", VStr cat)]) false true w.

(* ------------------------------------------------------------------ *)
(** ** [db.Server] and [db.Client] *)

Module Server.

(** The request dictionary built by [Client.send_query]. *)
Record Request := {
  query : string;
  query_data : Params;
  commit : bool;
  fetch : bool
}.

(** What arrives on the REP socket: a request, or an interrupt
    ([KeyboardInterrupt] / [SystemExit]) while waiting. *)
Inductive Incoming :=
| Msg (r : Request)
| Interrupt.

(** How the inner [while True] loop ends.  The loop is run on [fuel]
    iterations; [LoopOutOfFuel] means it was still looping. *)
Inductive LoopOutcome :=
| LoopDone (result : option (list Row)) (conn : PgConn) (w : World)
    (recon_attempt : nat)
| LoopRaised (e : DbError) (conn : PgConn) (w : World) (recon_attempt : nat)
| LoopOutOfFuel (conn : PgConn) (w : World) (recon_attempt : nat).

(** The inner loop of [Server.main] (lines 48-67) on request [msg];
    [a] are the arguments [main] got for [psycopg2.connect]. *)
Fixpoint process (fuel : nat) (db : Oracle) (a : ConnArgs) (msg : Request)
    (conn : PgConn) (recon_attempt : nat) (w : World) : LoopOutcome :=
  match fuel with
  | O => LoopOutOfFuel conn w recon_attempt
  | S fuel' =>
      (* with conn.cursor() as cursor: *)
      let w1 := emit w (EvCursor (pg_id conn)) in
      (* cursor.execute(msg["query"], msg["query_data"]) *)
      let '(c2, w2, o) := pg_execute db conn (query msg) (query_data msg) w1 in
      match o with
      | Raise e =>
          (* the with block closes the cursor as the exception leaves it *)
          let w3 := emit w2 (EvCursorClose (pg_id c2)) in
          if is_operational e then
            (* recon_attempt += 1; conn = psycopg2.connect( *args, **kwargs) *)
            let '(c4, w4) := psycopg2_connect a w3 in
            process fuel' db a msg c4 (S recon_attempt) w4
          else LoopRaised e c2 w3 recon_attempt
      | Rows rs =>
          (* result = cursor.fetchall() if msg["fetch"] else None *)
          let '(result, w3) :=
            if fetch msg then (Some rs, emit w2 (EvFetchall (pg_id c2)))
            else (None, w2) in
          (* if msg["commit"]: conn.commit() else: conn.rollback() *)
          let '(c4, w4) := if commit msg then pg_commit c2 w3 else pg_rollback c2 w3 in
          (* end of the with block; break *)
          LoopDone result c4 (emit w4 (EvCursorClose (pg_id c4))) recon_attempt
      end
  end.

(** How [Server.main] ends, with the replies it sent, in order. *)
Inductive MainOutcome :=
| Blocked (replies : list (option (list Row))) (conn : PgConn) (w : World)
    (** waiting in [recv_pyobj] *)
| Stopped (replies : list (option (list Row))) (w : World)
    (** interrupt caught: [server.close()], [ctx.term()] *)
| Crashed (e : DbError) (replies : list (option (list Row))) (w : World)
    (** an exception other than the caught ones left [main] *)
| Spinning (replies : list (option (list Row))) (w : World).
    (** the inner loop was still retrying *)

(** The outer [while True] loop of [Server.main] (lines 43-74). *)
Fixpoint main_loop (fuel : nat) (db : Oracle) (a : ConnArgs)
    (inbox : list Incoming) (conn : PgConn)
    (replies : list (option (list Row))) (w : World) : MainOutcome :=
  match inbox with
  | [] => Blocked replies conn w
  | Interrupt :: _ => Stopped replies w
  | Msg msg :: rest =>
      match process fuel db a msg conn 0 w with
      | LoopDone result c1 w1 _ =>
          (* server.send_pyobj(result) *)
          main_loop fuel db a rest c1 (replies ++ [result]) w1
      | LoopRaised e _ w1 _ => Crashed e replies w1
      | LoopOutOfFuel _ w1 _ => Spinning replies w1
      end
  end.

(** [Server.main( *args, **kwargs)] *)
Definition main (fuel : nat) (db : Oracle) (a : ConnArgs) (inbox : list Incoming)
    (w : World) : MainOutcome :=
  let '(conn, w1) := psycopg2_connect a w in
  main_loop fuel db a inbox conn [] w1.

Definition replies_of (o : MainOutcome) : list (option (list Row)) :=
  match o with
  | Blocked r _ _ | Stopped r _ | Crashed _ r _ | Spinning r _ => r
  end.

End Server.

Module Client.
Import Server.

(** [Client.send_query(query, query_data=None, commit=False, fetch=False)]
    against a Service whose session is [conn]: the request is sent, the
    Service handles it, and [recv_pyobj] returns the reply.  [None] means
    no reply ever comes: [recv_pyobj] blocks. *)
Definition send_query (fuel : nat) (db : Oracle) (a : ConnArgs) (conn : PgConn)
    (w : World) (query : string) (query_data : Params) (commit fetch : bool)
    : option (option (list Row)) :=
  let data := {| Server.query := query; Server.query_data := query_data;
                 Server.commit := commit; Server.fetch := fetch |} in
  match replies_of (main_loop fuel db a [Msg data] conn [] w) with
  | r :: _ => Some r
  | [] => None
  end.

(** The transport resources of the [Client]s of a process.  Every
    [Client] takes its context from [zmq.Context.instance()], the single
    context of the process, so all of them share it: the record holds the
    sockets of that context still open, whether it has been terminated,
    and the releases that happened, in order.  A socket is named by a
    number. *)
Inductive Release := SocketClosed (sock : nat) | CtxTerminated.

Record Resources := {
  open_sockets : list nat;
  ctx_closed : bool;
  releases : list Release
}.

(** A call returns, or it blocks for good. *)
Inductive Step := Returns (r : Resources) | BlocksInTerm (r : Resources).

(** pyzmq's [socket.close()]: closes an open socket; on a closed socket
    it does nothing. *)
Definition socket_close (sock : nat) (r : Resources) : Resources :=
  if existsb (Nat.eqb sock) (open_sockets r) then
    {| open_sockets := filter (fun x => negb (Nat.eqb x sock)) (open_sockets r);
       ctx_closed := ctx_closed r;
       releases := releases r ++ [SocketClosed sock] |}
  else r.

(** pyzmq's [ctx.term()]: on a terminated context it does nothing;
    otherwise it waits until every socket of the context has been closed,
    then terminates it.  Nothing else in the process closes the sockets
    while it waits, so with a socket still open it never returns. *)
Definition ctx_term (r : Resources) : Step :=
  if ctx_closed r then Returns r
  else
    match open_sockets r with
    | [] => Returns {| open_sockets := []; ctx_closed := true;
                       releases := releases r ++ [CtxTerminated] |}
    | _ :: _ => BlocksInTerm r
    end.

(** [Client.close()] on the client whose socket is [sock]. *)
Definition close (sock : nat) (r : Resources) : Step :=
  (* self.client.close() *)
  let r1 := socket_close sock r in
  (* self.ctx.term() *)
  ctx_term r1.

(** [Client.__del__()] *)
Definition __del__ (sock : nat) (r : Resources) : Step := close sock r.

(** What happens to the clients of a process: an explicit [close()] (as
    in [start_bot]'s cleanup loop), the finalization of a client by the
    runtime (which runs [__del__]), or an abrupt end of the process,
    after which nothing runs. *)
Inductive Life := ExplicitClose (sock : nat) | Finalize (sock : nat) | AbruptExit.

Fixpoint lifetime (evs : list Life) (r : Resources) : Step :=
  match evs with
  | [] => Returns r
  | AbruptExit :: _ => Returns r
  | ExplicitClose sock :: rest =>
      match close sock r with
      | Returns r1 => lifetime rest r1
      | BlocksInTerm r1 => BlocksInTerm r1
      end
  | Finalize sock :: rest =>
      match __del__ sock r with
      | Returns r1 => lifetime rest r1
      | BlocksInTerm r1 => BlocksInTerm r1
      end
  end.

(** The clients [Client(URL)] with sockets [socks], constructed and not
    yet closed. *)
Definition clients (socks : list nat) : Resources :=
  {| open_sockets := socks; ctx_closed := false; releases := [] |}.

(** [start_bot]'s cleanup: [for dbc in _DB_CLIENTS: dbc.close()]. *)
Definition cleanup (socks : list nat) : list Life := map ExplicitClose socks.

Definition resources_of (s : Step) : Resources :=
  match s with Returns r | BlocksInTerm r => r end.

(** How many times socket [sock] was released. *)
Definition socket_releases (sock : nat) (rs : list Release) : nat :=
  List.length (filter (fun e => match e with
                                | SocketClosed x => Nat.eqb x sock
                                | CtxTerminated => false
                                end) rs).

(** How many times the context was terminated. *)
Definition ctx_terminations (rs : list Release) : nat :=
  List.length (filter (fun e => match e with
                                | SocketClosed _ => false
                                | CtxTerminated => true
                                end) rs).

End Client.

(* ------------------------------------------------------------------ *)
(** ** [Server.main] with every psycopg2 call that can raise *)

(** [Server.process] lets only [cursor.execute] raise.  Here the server
    also decides whether [psycopg2.connect], [cursor.fetchall()],
    [conn.commit()] and [conn.rollback()] raise: [OperationalError] when
    the server cannot be reached, [ProgrammingError] from [fetchall()]
    after a statement that produced no result set, and so on.  Each
    function sees the log so far; [None] means the call succeeds.  A call
    that raises adds nothing to the log. *)
Record Backend := {
  on_execute : Oracle;
  on_connect : list PgEvent -> ConnArgs -> option DbError;
  on_fetchall : list PgEvent -> option DbError;
  on_commit : list PgEvent -> option DbError;
  on_rollback : list PgEvent -> option DbError
}.

Module ServerFull.
Import Server.

(** [psycopg2.connect( *args, **kwargs)], which may raise. *)
Definition connect (be : Backend) (a : ConnArgs) (w : World)
  : PyResult (PgConn * World) :=
  match on_connect be (log w) a with
  | Some e => Err e
  | None => Ok (psycopg2_connect a w)
  end.

(** The body of [with conn.cursor() as cursor:] (lines 51-58): the
    session and world after it, and the result or the exception that
    leaves it. *)
Definition with_body (be : Backend) (msg : Request) (conn : PgConn) (w : World)
  : PgConn * World * PyResult (option (list Row)) :=
  (* with conn.cursor() as cursor: *)
  let w1 := emit w (EvCursor (pg_id conn)) in
  (* cursor.execute(msg["query"], msg["query_data"]) *)
  let '(c2, w2, o) := pg_execute (on_execute be) conn (query msg) (query_data msg) w1 in
  match o with
  | Raise e => (c2, w2, Err e)
  | Rows rs =>
      (* result = cursor.fetchall() if msg["fetch"] else None *)
      let fetched :=
        if fetch msg then
          match on_fetchall be (log w2) with
          | Some e => Err e
          | None => Ok (Some rs, emit w2 (EvFetchall (pg_id c2)))
          end
        else Ok (None, w2) in
      match fetched with
      | Err e => (c2, w2, Err e)
      | Ok (result, w3) =>
          (* if msg["commit"]: conn.commit() else: conn.rollback() *)
          let raised := if commit msg then on_commit be (log w3)
                        else on_rollback be (log w3) in
          match raised with
          | Some e => (c2, w3, Err e)
          | None =>
              let '(c4, w4) := if commit msg then pg_commit c2 w3
                               else pg_rollback c2 w3 in
              (c4, w4, Ok result)
          end
      end
  end.

(** The inner loop of [Server.main] (lines 48-67) on request [msg]. *)
Fixpoint process (fuel : nat) (be : Backend) (a : ConnArgs) (msg : Request)
    (conn : PgConn) (recon_attempt : nat) (w : World) : LoopOutcome :=
  match fuel with
  | O => LoopOutOfFuel conn w recon_attempt
  | S fuel' =>
      let '(c1, w1, r) := with_body be msg conn w in
      (* leaving the with block closes the cursor *)
      let w2 := emit w1 (EvCursorClose (pg_id c1)) in
      match r with
      | Ok result => (* break *) LoopDone result c1 w2 recon_attempt
      | Err e =>
          if is_operational e then
            (* except psycopg2.OperationalError: recon_attempt += 1;
               conn = psycopg2.connect( *args, **kwargs) *)
            match connect be a w2 with
            | Ok (c4, w4) => process fuel' be a msg c4 (S recon_attempt) w4
            | Err e' =>
                (* raised inside the except clause: nothing catches it *)
                LoopRaised e' c1 w2 (S recon_attempt)
            end
          else LoopRaised e c1 w2 recon_attempt
      end
  end.

(** The outer [while True] loop of [Server.main] (lines 43-74). *)
Fixpoint main_loop (fuel : nat) (be : Backend) (a : ConnArgs)
    (inbox : list Incoming) (conn : PgConn)
    (replies : list (option (list Row))) (w : World) : MainOutcome :=
  match inbox with
  | [] => Blocked replies conn w
  | Interrupt :: _ => Stopped replies w
  | Msg msg :: rest =>
      match process fuel be a msg conn 0 w with
      | LoopDone result c1 w1 _ =>
          (* server.send_pyobj(result) *)
          main_loop fuel be a rest c1 (replies ++ [result]) w1
      | LoopRaised e _ w1 _ => Crashed e replies w1
      | LoopOutOfFuel _ w1 _ => Spinning replies w1
      end
  end.

End ServerFull.

(* ------------------------------------------------------------------ *)
(** ** [account_management.check_sender] *)

Module AccountManagement.

(** The [users] table: rows [(id, gender)]. *)
Definition UsersTable := list (nat * string).

(** [validate_id(id)]: [SELECT COUNT(id) > 0 FROM users WHERE id = %(id)s
    LIMIT 1;] and [return res[0][0]]. *)
Definition validate_id (users : UsersTable) (id : nat) : bool :=
  Nat.ltb 0 (List.length (filter (fun r => Nat.eqb (fst r) id) users)).

Record User := {
  id : nat;
  name : string
}.

Record Update := {
  effective_user : User
}.

(** What a handler does on the chat side. *)
Inductive BotAction :=
| ReplyText (text : string)
| SendMessage (chat_id : nat) (text : string)
| LogCritical (text : string).

Inductive HandlerResult :=
| END
| NextState (s : string).

Definition Handler := Update -> list BotAction * HandlerResult.

Definition dq : string := String (Ascii.ascii_of_nat 34) "".

(** ['!!! ATTN: Access attempt !!!\n  name: "{}"\n  id: "{}"'.format(...)] *)
Definition access_msg (u : User) : string :=
  "!!! ATTN: Access attempt !!!" ++ nl ++
  "  name: " ++ dq ++ name u ++ dq ++ nl ++
  "  id: " ++ dq ++ str_of_nat (id u) ++ dq.

Definition denied_text : string :=
  "You do not have access to this bot. :(" ++ nl ++
  "Thank you and have a nice day! :)".

(** [check_sender(report=True)(func)]: the [wrapper]. *)
Definition check_sender (report : bool) (DEV_CHATID : nat) (users : UsersTable)
    (func : Handler) : Handler :=
  fun update =>
    if validate_id users (id (effective_user update)) then func update
    else
      let msg := access_msg (effective_user update) in
      (([LogCritical msg; ReplyText denied_text] ++
       (if report then [SendMessage DEV_CHATID msg] else []))%list,
       END).

End AccountManagement.

(* ------------------------------------------------------------------ *)
(** ** What the store keeps *)

(** PostgreSQL's side of the log: statements executed on a session stay
    pending in its transaction; [commit] makes them durable, [rollback]
    and [close] discard them.  [durable] is what the store has kept. *)
Definition Pending := list (nat * (string * Params)).

Definition dstep (st : Pending * list (string * Params)) (e : PgEvent)
  : Pending * list (string * Params) :=
  let '(pending, kept) := st in
  match e with
  | EvExecute i q d => (pending ++ [(i, (q, d))], kept)
  | EvCommit i =>
      (filter (fun p => negb (Nat.eqb (fst p) i)) pending,
       kept ++ map snd (filter (fun p => Nat.eqb (fst p) i) pending))
  | EvRollback i | EvClose i =>
      (filter (fun p => negb (Nat.eqb (fst p) i)) pending, kept)
  | _ => (pending, kept)
  end%list.

Definition durable (l : list PgEvent) : list (string * Params) :=
  snd (fold_left dstep l ([], [])).

(* ------------------------------------------------------------------ *)
(** ** [utils.gen_keyboard] *)

Section GenKeyboard.
Variable A : Type.
(** Python's [len] on an item. *)
Variable len : A -> nat.

(** [sum(map(len, row))] *)
Fixpoint sum_len (row : list A) : nat :=
  match row with
  | [] => 0
  | x :: r => len x + sum_len r
  end.

(** The [for item in items] loop, with [keyboard] and [cur_row], then the
    final [if cur_row: keyboard.append(cur_row)]. *)
Fixpoint gen_keyboard_loop (columns max_char_len : nat) (items : list A)
    (keyboard : list (list A)) (cur_row : list A) : list (list A) :=
  match items with
  | [] =>
      match cur_row with
      | [] => keyboard
      | _ :: _ => keyboard ++ [cur_row]
      end
  | item :: rest =>
      if Nat.leb columns (List.length cur_row)
         || Nat.leb max_char_len (sum_len (cur_row ++ [item]))
      then gen_keyboard_loop columns max_char_len rest (keyboard ++ [cur_row]) [item]
      else gen_keyboard_loop columns max_char_len rest keyboard (cur_row ++ [item])
  end%list.

(** [columns = 1 if (columns is None) and (max_char_len is None)
    else (columns or 99999)] *)
Definition effective_columns (columns max_char_len : option nat) : nat :=
  match columns, max_char_len with
  | None, None => 1
  | Some c, _ => if Nat.eqb c 0 then 99999 else c
  | None, Some _ => 99999
  end.

(** [max_char_len = max_char_len or 99999] *)
Definition effective_max (max_char_len : option nat) : nat :=
  match max_char_len with
  | Some m => if Nat.eqb m 0 then 99999 else m
  | None => 99999
  end.

(** [gen_keyboard(items, columns=None, max_char_len=None)]; the counts
    are Python non-negative integers. *)
Definition gen_keyboard (items : list A) (columns max_char_len : option nat)
  : list (list A) :=
  gen_keyboard_loop (effective_columns columns max_char_len)
    (effective_max max_char_len) items [] [].

End GenKeyboard.

Arguments sum_len {A} len row.
Arguments gen_keyboard_loop {A} len columns max_char_len items keyboard cur_row.
Arguments gen_keyboard {A} len items columns max_char_len.

(* ------------------------------------------------------------------ *)
(** ** Python dictionaries *)

(** A [dict] with string keys, in insertion order. *)
Module PyDict.

Definition t (V : Type) := list (string * V).

(** [d[k] = v]: an existing key keeps its place. *)
Fixpoint set {V : Type} (d : t V) (k : string) (v : V) : t V :=
  match d with
  | [] => [(k, v)]
  | (k', v') :: r => if String.eqb k k' then (k, v) :: r else (k', v') :: set r k v
  end.

(** [d.get(k)] *)
Fixpoint get {V : Type} (d : t V) (k : string) : option V :=
  match d with
  | [] => None
  | (k', v) :: r => if String.eqb k k' then Some v else get r k
  end.

(** [{**a, **b}] *)
Definition merge {V : Type} (a b : t V) : t V :=
  fold_left (fun acc kv => set acc (fst kv) (snd kv)) b a.

Definition keys {V : Type} (d : t V) : list string := map fst d.

End PyDict.

(* ------------------------------------------------------------------ *)
(** ** [utils.update_budget] and [utils.setup_tables] *)

(** [", ".join]-style joining with a separator. *)
Fixpoint join (sep : string) (xs : list string) : string :=
  match xs with
  | [] => ""
  | [x] => x
  | x :: r => x ++ sep ++ join sep r
  end.

(** The statement text of [update_budget] for the given column names. *)
Definition update_budget_query (cols : list string) : string :=
  nl ++ "        UPDATE monthly_budgets" ++ nl ++
  "        SET " ++ join "," (map (fun col => col ++ " = %(" ++ col ++ ")s") cols) ++ nl ++
  "        WHERE category LIKE %(category)s;" ++ nl ++ "        ".

(** [assert set(kwargs.keys()) <= {"max_budget", "max_tx_amount"}] *)
Definition allowed_budget_key (k : string) : bool :=
  String.eqb k "max_budget" || String.eqb k "max_tx_amount".

(** [update_budget(conn, category, **kwargs)] on a [ConnWithRecon];
    [None] is the [AssertionError], raised before anything is done. *)
Definition update_budget (db : Oracle) (conn : ConnWithRecon.t) (category : string)
    (kw : PyDict.t Value) (w : World)
  : option (ConnWithRecon.t * World * PyResult unit) :=
  if forallb allowed_budget_key (PyDict.keys kw) then
    let exec_kwargs := PyDict.merge [("category", VStr category)] kw in
    (* cursor = conn.cursor() *)
    let '(s1, w1, _) := ConnWithRecon.__getattr__ conn "cursor" w in
    let c1 := ConnWithRecon.conn s1 in
    let w2 := emit w1 (EvCursor (pg_id c1)) in
    (* cursor.execute(..., vars=exec_kwargs) *)
    let '(c3, w3, o) :=
      pg_execute db c1 (update_budget_query (PyDict.keys kw)) (Some exec_kwargs) w2 in
    let s3 := ConnWithRecon.set_conn s1 c3 in
    match o with
    | Raise e => Some (s3, w3, Err e)
    | Rows _ =>
        (* conn.commit() *)
        let '(s4, w4) := ConnWithRecon.commit s3 w3 in
        Some (s4, w4, Ok tt)
    end
  else None.

Definition create_spend_log : string :=
  nl ++ "        CREATE TABLE spend_log(" ++ nl ++
  "            username text NOT NULL," ++ nl ++
  "            category text NOT NULL," ++ nl ++
  "            amount real NOT NULL," ++ nl ++
  "            notes text," ++ nl ++
  "            tx_timestamp TIMESTAMP NOT NULL" ++ nl ++
  "        );" ++ nl ++ "        ".

Definition create_monthly_budgets : string :=
  nl ++ "    CREATE TABLE monthly_budgets(" ++ nl ++
  "        category text," ++ nl ++
  "        max_budget real," ++ nl ++
  "        max_tx_amount real" ++ nl ++
  "    );" ++ nl ++ "    ".

Definition insert_budget : string :=
  "INSERT INTO monthly_budgets (category, max_budget, max_tx_amount) " ++
  "VALUES (%(category)s, %(max_budget)s, %(tx_amount)s);".

(** [{**{"category": cat, "max_budget": None, "tx_amount": None}, **val_dict}] *)
Definition budget_row (cat : string) (val_dict : PyDict.t Value) : PyDict.t Value :=
  PyDict.merge [("category", VStr cat); ("max_budget", VNone); ("tx_amount", VNone)]
    val_dict.

(** [cur.execute(...)] on the cursor's session, raising on error. *)
Definition cur_execute (db : Oracle) (c : PgConn) (q : string) (d : Params) (w : World)
  : PgConn * World * PyResult unit :=
  let '(c1, w1, o) := pg_execute db c q d w in
  match o with
  | Raise e => (c1, w1, Err e)
  | Rows _ => (c1, w1, Ok tt)
  end.

(** The [for cat, val_dict in expense_budgets.items()] loop. *)
Fixpoint insert_budgets (db : Oracle) (c : PgConn) (budgets : PyDict.t (PyDict.t Value))
    (w : World) : PgConn * World * PyResult unit :=
  match budgets with
  | [] => (c, w, Ok tt)
  | (cat, val_dict) :: rest =>
      let '(c1, w1, r) := cur_execute db c insert_budget (Some (budget_row cat val_dict)) w in
      match r with
      | Err e => (c1, w1, Err e)
      | Ok _ => insert_budgets db c1 rest w1
      end
  end.

(** [setup_tables(conn, expense_budgets=None)] on a [ConnWithRecon];
    [expense_budgets or {}] is the list of budgets ([[]] for [None]). *)
Definition setup_tables (db : Oracle) (conn : ConnWithRecon.t)
    (expense_budgets : PyDict.t (PyDict.t Value)) (w : World)
  : ConnWithRecon.t * World * PyResult unit :=
  (* cur = conn.cursor() *)
  let '(s1, w1, _) := ConnWithRecon.__getattr__ conn "cursor" w in
  let w2 := emit w1 (EvCursor (pg_id (ConnWithRecon.conn s1))) in
  let '(c3, w3, r3) := cur_execute db (ConnWithRecon.conn s1) create_spend_log None w2 in
  let s3 := ConnWithRecon.set_conn s1 c3 in
  match r3 with
  | Err e => (s3, w3, Err e)
  | Ok _ =>
      (* conn.commit() *)
      let '(s4, w4) := ConnWithRecon.commit s3 w3 in
      let '(c5, w5, r5) :=
        cur_execute db (ConnWithRecon.conn s4) create_monthly_budgets None w4 in
      match r5 with
      | Err e => (ConnWithRecon.set_conn s4 c5, w5, Err e)
      | Ok _ =>
          let '(c6, w6, r6) := insert_budgets db c5 expense_budgets w5 in
          let s6 := ConnWithRecon.set_conn s4 c6 in
          match r6 with
          | Err e => (s6, w6, Err e)
          | Ok _ =>
              (* conn.commit() *)
              let '(s7, w7) := ConnWithRecon.commit s6 w6 in
              (s7, w7, Ok tt)
          end
      end
  end.

(* ------------------------------------------------------------------ *)
(** ** [log_gift]: review and upload *)

Module LogGift.
Import AccountManagement.

(** [update.message.from_user] and [update.message]. *)
Record TgUser := {
  username : option string;
  user_id : nat
}.

Record Message := {
  text : string;
  from_user : TgUser
}.

Definition YES : string := "Yes".






(** [get_recipient(update, context)]; [line] is the
    [random.choice(const.LINES_ENTHUSIASM)] drawn. *)
Definition get_recipient (line : string) : list BotAction * HandlerResult :=
  ([ReplyText line; ReplyText "Might I ask to whom this gift is for?"],
   NextState "GIFT_ITEM").

Definition insert_gift : string :=
  "INSERT INTO gift_log (username, recipient, item, amount, notes, tx_timestamp) " ++
  "VALUES (%(username)s, %(recipient)s, %(item)s, %(amount)s, %(notes)s, %(tx_timestamp)s)".

(** [user.username or user.id] *)
Definition username_or_id (u : TgUser) : Value :=
  match username u with
  | Some s => if String.eqb s "" then VInt (user_id u) else VStr s
  | None => VInt (user_id u)
  end.

(** [upload_gift(update, context)] with [_CONN] = [conn]; [now] is
    [datetime.now()] and [line] the enthusiasm line [get_recipient] draws.
    It returns the connection, the world, the new [context.user_data] and
    the handler's result, or the exception [.result()] re-raises.
    ([send_typing] is a chat action, not modelled.) *)
Definition upload_gift (db : Oracle) (conn : ConnWithRecon.t) (m : Message)
    (now : Value) (line : string) (user_data : PyDict.t Value) (w : World)
  : ConnWithRecon.t * World * PyDict.t Value
    * PyResult (list BotAction * HandlerResult) :=
  if String.eqb (text m) YES then
    let data_upload :=
      PyDict.set (PyDict.set user_data "tx_timestamp" now) "username"
        (username_or_id (from_user m)) in
    let '(s1, w1, r) := execute_query db conn insert_gift (Some data_upload) true false w in
    match r with
    | Err e => (s1, w1, user_data, Err e)
    | Ok _ =>
        (* context.user_data.clear() *)
        (s1, w1, [],
         Ok ([ReplyText "Alright. I shall add them to my records. Have a pleasant day."],
             END))
    end
  else
    let '(acts, res) := get_recipient line in
    (conn, w, user_data, Ok ((ReplyText "Let's try again shall we?" :: acts)%list, res)).

End LogGift.

(* ------------------------------------------------------------------ *)
(** ** [core.task_menu] and [core.land_to_task_menu] *)

Module Core.
Import AccountManagement.

Definition task_menu_text : string :=
  "My Services:" ++ nl ++ "Note: You can type " ++ dq ++ "/cancel" ++ dq ++
  " to stop at any time.".

(** The body of [task_menu] (its keyboard markup is not modelled). *)
Definition task_menu_body : Handler :=
  fun _ => ([ReplyText task_menu_text], NextState "TASK").

(** [task_menu], decorated with [@am.check_sender()]. *)
Definition task_menu (DEV_CHATID : nat) (users : UsersTable) : Handler :=
  check_sender true DEV_CHATID users task_menu_body.

(** [land_to_task_menu(func)]: the [wrapper]. *)
Definition land_to_task_menu (DEV_CHATID : nat) (users : UsersTable)
    (func : Handler) : Handler :=
  fun update =>
    let '(acts, res) := func update in
    match res with
    | END =>
        let '(acts2, res2) := task_menu DEV_CHATID users update in
        ((acts ++ [ReplyText "Anything else I can do for you?"] ++ acts2)%list, res2)
    | NextState _ => (acts, res)
    end.

End Core.

(* ================================================================== *)
(** * Properties *)

Open Scope list_scope.

(** Sample values used by the concrete checks below. *)
Definition sample_args : ConnArgs :=
  {| args := []; kwargs := [("dbname", "butler"); ("user", "butler")] |}.

Definition sample_session (n : nat) (st : TxStatus) : PgConn :=
  {| pg_id := n; pg_args := sample_args; pg_closed := false; pg_status := st |}.

Definition sample_wrapper (st : TxStatus) : ConnWithRecon.t :=
  {| ConnWithRecon.conn := sample_session 0 st;
     ConnWithRecon.init_args := args sample_args;
     ConnWithRecon.init_kwargs := kwargs sample_args |}.

Definition w0 : World := {| next_id := 1; log := [EvConnect 0 sample_args] |}.

(** A freshly opened physical session. *)
Definition fresh_session (n : nat) (a : ConnArgs) : PgConn :=
  {| pg_id := n; pg_args := a; pg_closed := false;
     pg_status := TRANSACTION_STATUS_IDLE |}.

Module ConnWithReconFacts.
Import ConnWithRecon.

Example getattr_on_idle :
  __getattr__ (sample_wrapper TRANSACTION_STATUS_IDLE) "cursor" w0
  = (sample_wrapper TRANSACTION_STATUS_IDLE, w0,
     {| owner := 0; attr_name := "cursor" |}).
Proof. reflexivity. Qed.

(** C1: every [__getattr__] takes exactly one of four branches before it
    returns the attribute of the (possibly new) physical session: a closed
    session is replaced by a new one opened with the construction
    arguments; an open session in status UNKNOWN is closed and replaced
    the same way; an open session in any other non-idle status is rolled
    back and kept; an idle open session is used as it is. *)
Theorem getattr_health_check_branches :
  forall (self : t) (attr : string) (w : World),
  let '(s1, w1, b) := __getattr__ self attr w in
  let c := conn self in
  owner b = pg_id (conn s1) /\ attr_name b = attr /\
  init_params s1 = init_params self /\
  ((pg_closed c = true /\
    conn s1 = fresh_session (next_id w) (init_params self) /\
    log w1 = log w ++ [EvConnect (next_id w) (init_params self)])
   \/
   (pg_closed c = false /\ pg_status c = TRANSACTION_STATUS_UNKNOWN /\
    conn s1 = fresh_session (next_id w) (init_params self) /\
    log w1 = log w ++ [EvClose (pg_id c);
                       EvConnect (next_id w) (init_params self)])
   \/
   (pg_closed c = false /\
    pg_status c <> TRANSACTION_STATUS_IDLE /\
    pg_status c <> TRANSACTION_STATUS_UNKNOWN /\
    conn s1 = {| pg_id := pg_id c; pg_args := pg_args c; pg_closed := false;
                 pg_status := TRANSACTION_STATUS_IDLE |} /\
    w1 = {| next_id := next_id w; log := log w ++ [EvRollback (pg_id c)] |})
   \/
   (pg_closed c = false /\ pg_status c = TRANSACTION_STATUS_IDLE /\
    s1 = self /\ w1 = w)).
Proof.
  intros [[id a closed st] ia ikw] attr [n l].
  unfold __getattr__, health_check, reconnect, init_params; simpl.
  destruct closed; simpl.
  - do 3 (split; [reflexivity |]).
    left; repeat split.
  - destruct st; simpl; do 3 (split; [reflexivity |]).
    + do 3 right; repeat split.
    + do 2 right; left; repeat split; discriminate.
    + do 2 right; left; repeat split; discriminate.
    + do 2 right; left; repeat split; discriminate.
    + right; left; repeat split; rewrite <- app_assoc; reflexivity.
Qed.

End ConnWithReconFacts.

Module LogicalFacts.
Import ConnWithRecon.

Example cursor_resolves_through_getattr : resolve "cursor" = ViaGetattr.
Proof. reflexivity. Qed.

(** Whatever the session's state, it is open after the health check. *)
Lemma health_check_opens : forall self w,
  pg_closed (conn (fst (health_check self w))) = false.
Proof.
  intros [[i a cl st] ia ik] w. unfold health_check. simpl.
  destruct cl, st; reflexivity.
Qed.

(** The state [execute_query] with [commit=False] leaves behind: session 0
    is in a transaction holding an uncommitted statement. *)
Definition pending_world : World :=
  {| next_id := 1;
     log := [EvConnect 0 sample_args; EvCursor 0;
             EvExecute 0 "INSERT INTO spend_log VALUES (1)" None; EvCursorClose 0] |}.

(** A wrapper whose session has been closed. *)
Definition closed_wrapper : t :=
  set_conn (sample_wrapper TRANSACTION_STATUS_IDLE)
    {| pg_id := 0; pg_args := sample_args; pg_closed := true;
       pg_status := TRANSACTION_STATUS_IDLE |}.

(** C7 (as stated, refuted): [commit] is found on the class, so
    [__getattr__] is never called for it.  On a session left in a
    transaction, [_CONN.commit()] makes the pending statement durable,
    while the health-checked route would first roll it back.  On a closed
    session, [_CONN.commit()] raises [InterfaceError], while the
    health-checked route would reconnect and succeed. *)
Lemma commit_skips_health_check_counterexample :
  resolve "commit" = Normal /\
  durable (log (snd (fst (Logical.invoke (sample_wrapper TRANSACTION_STATUS_INTRANS)
                            "commit" pending_world))))
  = [("INSERT INTO spend_log VALUES (1)", None)] /\
  durable (log (snd (fst (Logical.health_checked (sample_wrapper TRANSACTION_STATUS_INTRANS)
                            "commit" pending_world)))) = [] /\
  snd (Logical.invoke closed_wrapper "commit" w0)
  = Some (InterfaceError "connection already closed") /\
  snd (Logical.health_checked closed_wrapper "commit" w0) = None.
Proof. repeat split; vm_compute; reflexivity. Qed.

(** C7 (amended): an operation whose name is not found on the wrapper
    itself (its instance attributes [conn], [init_args], [init_kwargs],
    its class attributes [__init__], [__getattr__], [commit],
    [reconnect], and [object]'s) goes through [__getattr__] and so runs
    after the health check.  [commit()] is found on the class and calls
    the current physical session's [commit()] directly, with no health
    check: on an open session it commits there (whatever the session's
    transaction status), on a closed one it raises [InterfaceError].  An
    operation run after the health check never raises, since the check
    leaves the session open. *)
Theorem invoke_health_check_except_commit :
  (forall (self : t) (name : string) (w : World),
     found_normally name = false ->
     Logical.invoke self name w = Logical.health_checked self name w) /\
  resolve "commit" = Normal /\
  (forall (self : t) (w : World),
     pg_closed (conn self) = false ->
     Logical.invoke self "commit" w
     = (set_conn self {| pg_id := pg_id (conn self); pg_args := pg_args (conn self);
                         pg_closed := false; pg_status := TRANSACTION_STATUS_IDLE |},
        emit w (EvCommit (pg_id (conn self))), None)) /\
  (forall (self : t) (w : World),
     pg_closed (conn self) = true ->
     Logical.invoke self "commit" w
     = (self, w, Some (InterfaceError "connection already closed"))) /\
  (forall (self : t) (name : string) (w : World),
     snd (Logical.health_checked self name w) = None).
Proof.
  split; [| split; [reflexivity | split; [| split]]].
  - intros self name w Hname.
    unfold Logical.invoke, Logical.health_checked, resolve.
    rewrite Hname.
    unfold __getattr__.
    destruct (health_check self w) as [s1 w1].
    reflexivity.
  - intros [[i a cl st] ia ik] w H. simpl in H. subst cl. reflexivity.
  - intros [[i a cl st] ia ik] w H. simpl in H. subst cl. reflexivity.
  - intros self name w. unfold Logical.health_checked.
    pose proof (health_check_opens self w) as H.
    destruct (health_check self w) as [s1 w1]. simpl in H.
    unfold session_call. rewrite H.
    destruct (session_op (conn s1) name w1). reflexivity.
Qed.

Lemma invoke_health_check_except_commit_witness :
  Logical.invoke (sample_wrapper TRANSACTION_STATUS_INERROR) "cursor" w0
  = Logical.health_checked (sample_wrapper TRANSACTION_STATUS_INERROR) "cursor" w0 /\
  Logical.invoke (sample_wrapper TRANSACTION_STATUS_INTRANS) "commit" pending_world
  = (set_conn (sample_wrapper TRANSACTION_STATUS_INTRANS)
       {| pg_id := 0; pg_args := sample_args; pg_closed := false;
          pg_status := TRANSACTION_STATUS_IDLE |},
     emit pending_world (EvCommit 0), None) /\
  Logical.invoke closed_wrapper "commit" w0
  = (closed_wrapper, w0, Some (InterfaceError "connection already closed")).
Proof.
  destruct invoke_health_check_except_commit as (H1 & _ & H3 & H4 & _).
  split; [| split].
  - apply (H1 (sample_wrapper TRANSACTION_STATUS_INERROR) "cursor" w0). reflexivity.
  - apply (H3 (sample_wrapper TRANSACTION_STATUS_INTRANS) pending_world). reflexivity.
  - apply (H4 closed_wrapper w0). reflexivity.
Defined.

End LogicalFacts.

(** ** The Database Service *)

Module ServerFacts.
Import Server.

Definition is_connect (e : PgEvent) : bool :=
  match e with EvConnect _ _ => true | _ => false end.

(** How many physical sessions were opened. *)
Definition count_connects (l : list PgEvent) : nat :=
  List.length (filter is_connect l).

Lemma count_connects_app : forall l1 l2,
  count_connects (l1 ++ l2) = count_connects l1 + count_connects l2.
Proof.
  intros l1 l2. unfold count_connects.
  rewrite filter_app, length_app. reflexivity.
Qed.

Definition req (q : string) (d : Params) (c f : bool) : Request :=
  {| query := q; query_data := d; commit := c; fetch := f |}.

(** A server that runs [SELECT 1] and rejects [SELEC 1]. *)
Definition sample_db : Oracle :=
  fun _ q _ =>
    if String.eqb q "SELECT 1" then Rows [[VInt 1]]
    else if String.eqb q "SELEC 1" then
      Raise (ProgrammingError "syntax error at or near SELEC")
    else Rows [].

(** A server that drops every session until [k] sessions were opened. *)
Definition flaky_db (k : nat) : Oracle :=
  fun l _ _ =>
    if Nat.ltb (count_connects l) k
    then Raise (OperationalError "server closed the connection unexpectedly")
    else Rows [[VInt 1]].

(** A server that is down. *)
Definition down_db : Oracle :=
  fun _ _ _ => Raise (OperationalError "could not connect to server").

Definition empty_world : World := {| next_id := 0; log := [] |}.

Example select_1_round_trip :
  replies_of (main 3 sample_db sample_args [Msg (req "SELECT 1" None false true)]
                empty_world)
  = [Some [[VInt 1]]].
Proof. reflexivity. Qed.

Example reconnect_then_answer :
  replies_of (main 3 (flaky_db 2) sample_args
                [Msg (req "SELECT 1" None false true)] empty_world)
  = [Some [[VInt 1]]].
Proof. reflexivity. Qed.

Definition world_of (o : LoopOutcome) : World :=
  match o with
  | LoopDone _ _ w _ | LoopRaised _ _ w _ | LoopOutOfFuel _ w _ => w
  end.

(** C2 (as stated, refuted): a request with invalid SQL ends the Service;
    neither that request nor the valid one after it gets a reply. *)
Lemma bad_statement_ends_service_counterexample :
  exists e w,
    main 3 sample_db sample_args
      [Msg (req "SELEC 1" None false true); Msg (req "SELECT 1" None false true)]
      empty_world
    = Crashed e [] w.
Proof. do 2 eexists. reflexivity. Qed.

(** C2 (amended): when the database rejects a request's statement with
    an error other than [OperationalError], nothing in [Server.main]
    catches it: the main loop ends with that error, no reply is sent for
    the request, and the requests after it are not served. *)
Theorem statement_error_ends_main_loop :
  forall fuel db a msg rest conn replies w e,
  db (log w ++ [EvCursor (pg_id conn)]) (query msg) (query_data msg) = Raise e ->
  is_operational e = false ->
  exists w',
    main_loop (S fuel) db a (Msg msg :: rest) conn replies w = Crashed e replies w'.
Proof.
  intros fuel db a msg rest conn replies [n l] e Hdb Hop.
  simpl in Hdb. simpl. rewrite Hdb, Hop.
  eexists. reflexivity.
Qed.

Lemma statement_error_ends_main_loop_witness :
  exists w',
    main_loop 3 sample_db sample_args
      [Msg (req "SELEC 1" None false true); Msg (req "SELECT 1" None false true)]
      (sample_session 0 TRANSACTION_STATUS_IDLE) [] w0
    = Crashed (ProgrammingError "syntax error at or near SELEC") [] w'.
Proof.
  apply (statement_error_ends_main_loop 2 sample_db sample_args
           (req "SELEC 1" None false true) [Msg (req "SELECT 1" None false true)]
           (sample_session 0 TRANSACTION_STATUS_IDLE) [] w0
           (ProgrammingError "syntax error at or near SELEC")).
  - reflexivity.
  - reflexivity.
Defined.

End ServerFacts.

Module RetryFacts.
Import Server ServerFacts.

Ltac flatten_logs := rewrite <- ?app_assoc; simpl.

(** [utils.execute_query] on a healthy wrapper: a statement that raises
    is executed once and the error is returned, with no reconnect. *)
Lemma execute_query_raises_once :
  forall db (self : ConnWithRecon.t) q d c f w e,
  pg_closed (ConnWithRecon.conn self) = false ->
  pg_status (ConnWithRecon.conn self) = TRANSACTION_STATUS_IDLE ->
  db (log w ++ [EvCursor (pg_id (ConnWithRecon.conn self))]) q d = Raise e ->
  exists s',
    execute_query db self q d c f w
    = (s', {| next_id := next_id w;
              log := log w ++ [EvCursor (pg_id (ConnWithRecon.conn self));
                               EvExecute (pg_id (ConnWithRecon.conn self)) q d] |},
       Err e).
Proof.
  intros db [[id pa cl st] ia ik] q d c f [n l] e Hcl Hst Hdb.
  simpl in *. subst cl st.
  unfold execute_query, ConnWithRecon.__getattr__, ConnWithRecon.health_check.
  simpl. rewrite Hdb. unfold emit. simpl. flatten_logs.
  eexists. reflexivity.
Qed.

(** A backend in which only [cursor.execute] can fail: the setting of
    [Server.process]. *)
Definition reliable (db : Oracle) : Backend :=
  {| on_execute := db; on_connect := fun _ _ => None;
     on_fetchall := fun _ => None; on_commit := fun _ => None;
     on_rollback := fun _ => None |}.

(** A server that cannot be reached: statements fail, and so does
    connecting. *)
Definition unreachable : Backend :=
  {| on_execute := down_db;
     on_connect := fun _ _ => Some (OperationalError "could not connect to server");
     on_fetchall := fun _ => None; on_commit := fun _ => None;
     on_rollback := fun _ => None |}.

(** [Server.process] is the full loop on a backend where only
    [cursor.execute] can fail. *)
Lemma process_reliable : forall fuel db a msg conn k w,
  ServerFull.process fuel (reliable db) a msg conn k w = process fuel db a msg conn k w.
Proof.
  induction fuel as [| fuel IH]; intros db a msg conn k w; [reflexivity |].
  simpl. unfold ServerFull.with_body, pg_execute. simpl.
  destruct (db _ _ _) as [rs | e]; simpl.
  - destruct (fetch msg), (commit msg); reflexivity.
  - destruct (is_operational e); [| reflexivity].
    unfold ServerFull.connect. simpl. apply IH.
Qed.

Lemma with_body_log : forall be msg conn w c1 w1 r,
  ServerFull.with_body be msg conn w = (c1, w1, r) ->
  exists new, log w1 = log w ++ new /\ count_connects new = 0 /\ next_id w1 = next_id w.
Proof.
  intros be msg conn [n l] c1 w1 r H.
  unfold ServerFull.with_body, pg_execute, emit in H. simpl in H.
  destruct (on_execute be _ _ _) as [rs | e].
  - destruct (fetch msg).
    + destruct (on_fetchall be _).
      * injection H as _ <- _. simpl. rewrite <- app_assoc.
        eexists; split; [reflexivity | split; reflexivity].
      * simpl in H. destruct (commit msg).
        -- destruct (on_commit be _); simpl in H; injection H as _ <- _; simpl;
             rewrite <- ?app_assoc; (eexists; split; [reflexivity | split; reflexivity]).
        -- destruct (on_rollback be _); simpl in H; injection H as _ <- _; simpl;
             rewrite <- ?app_assoc; (eexists; split; [reflexivity | split; reflexivity]).
    + simpl in H. destruct (commit msg).
      * destruct (on_commit be _); simpl in H; injection H as _ <- _; simpl;
          rewrite <- ?app_assoc; (eexists; split; [reflexivity | split; reflexivity]).
      * destruct (on_rollback be _); simpl in H; injection H as _ <- _; simpl;
          rewrite <- ?app_assoc; (eexists; split; [reflexivity | split; reflexivity]).
  - injection H as _ <- _. simpl. rewrite <- app_assoc.
    eexists; split; [reflexivity | split; reflexivity].
Qed.

Lemma connect_log : forall be a w c w',
  ServerFull.connect be a w = Ok (c, w') ->
  log w' = log w ++ [EvConnect (next_id w) a].
Proof.
  intros be a w c w' H. unfold ServerFull.connect in H.
  destruct (on_connect be (log w) a); [discriminate H |].
  injection H as _ <-. reflexivity.
Qed.

(** C3 (as stated, refuted): after the retry also fails with a
    connectivity error, the Service does not propagate it: it reconnects
    again, and here answers after a second reconnect. *)
Lemma retry_not_bounded_counterexample :
  exists c w,
    ServerFull.process 5 (reliable (flaky_db 3)) sample_args (req "SELECT 1" None false true)
      (sample_session 0 TRANSACTION_STATUS_IDLE) 0 w0
    = LoopDone (Some [[VInt 1]]) c w 2.
Proof. do 2 eexists. reflexivity. Qed.

(** C3 (amended): in the Service, a connectivity error raised anywhere in
    the [with] block ([execute], [fetchall], [commit] or [rollback]) makes
    it reconnect with [main]'s arguments and run the same request again.
    (1) One connectivity error, a successful reconnect, then success:
    the result is returned after exactly one reconnect.  (2) While
    reconnecting succeeds, there is no bound: if every attempt fails with
    a connectivity error, after any number of iterations the loop is still
    retrying, having reconnected once per attempt.  (3) If the reconnect
    itself raises, nothing catches that error: it leaves [Server.main],
    which ends with no reply to this request or to any later one.
    (4) [utils.execute_query] does not retry: a connectivity error is
    returned after one execution. *)
Theorem connectivity_retry_unbounded :
  (forall fuel be a msg conn w c1 w1 s c2 w2 c3 w3 result,
    ServerFull.with_body be msg conn w = (c1, w1, Err (OperationalError s)) ->
    ServerFull.connect be a (emit w1 (EvCursorClose (pg_id c1))) = Ok (c2, w2) ->
    ServerFull.with_body be msg c2 w2 = (c3, w3, Ok result) ->
    exists w',
      ServerFull.process (S (S fuel)) be a msg conn 0 w = LoopDone result c3 w' 1 /\
      count_connects (log w') = S (count_connects (log w))) /\
  (forall be a msg,
    (forall l, on_connect be l a = None) ->
    (forall conn w, exists c1 w1 s,
       ServerFull.with_body be msg conn w = (c1, w1, Err (OperationalError s))) ->
    forall fuel conn k w,
    exists c' w', ServerFull.process fuel be a msg conn k w = LoopOutOfFuel c' w' (k + fuel)) /\
  (forall fuel be a msg rest conn replies w c1 w1 s e,
    ServerFull.with_body be msg conn w = (c1, w1, Err (OperationalError s)) ->
    ServerFull.connect be a (emit w1 (EvCursorClose (pg_id c1))) = Err e ->
    ServerFull.main_loop (S fuel) be a (Msg msg :: rest) conn replies w
    = Crashed e replies (emit w1 (EvCursorClose (pg_id c1)))) /\
  (forall db (self : ConnWithRecon.t) q d c f w s,
    pg_closed (ConnWithRecon.conn self) = false ->
    pg_status (ConnWithRecon.conn self) = TRANSACTION_STATUS_IDLE ->
    db (log w ++ [EvCursor (pg_id (ConnWithRecon.conn self))]) q d
      = Raise (OperationalError s) ->
    exists s' w',
      execute_query db self q d c f w = (s', w', Err (OperationalError s)) /\
      next_id w' = next_id w /\ count_connects (log w') = count_connects (log w)).
Proof.
  split; [| split; [| split]].
  - intros fuel be a msg conn w c1 w1 s c2 w2 c3 w3 result H1 H2 H3.
    cbn [ServerFull.process]. rewrite H1. cbn [is_operational]. rewrite H2, H3.
    eexists; split; [reflexivity |].
    destruct (with_body_log _ _ _ _ _ _ _ H1) as (n1 & L1 & C1 & _).
    destruct (with_body_log _ _ _ _ _ _ _ H3) as (n3 & L3 & C3 & _).
    pose proof (connect_log _ _ _ _ _ H2) as L2.
    unfold emit in *. simpl in *. rewrite L3, L2, L1.
    rewrite !count_connects_app, C1, C3. unfold count_connects. simpl. lia.
  - intros be a msg Hc Hall fuel.
    induction fuel as [| fuel IH]; intros conn k w.
    + do 2 eexists. rewrite Nat.add_0_r. reflexivity.
    + cbn [ServerFull.process].
      destruct (Hall conn w) as (c1 & w1 & s & H). rewrite H. cbn [is_operational].
      unfold ServerFull.connect at 1. rewrite Hc.
      destruct (IH (fst (psycopg2_connect a (emit w1 (EvCursorClose (pg_id c1)))))
                   (S k)
                   (snd (psycopg2_connect a (emit w1 (EvCursorClose (pg_id c1))))))
        as [c' [w' Hw']].
      exists c', w'. rewrite <- Nat.add_succ_comm. exact Hw'.
  - intros fuel be a msg rest conn replies w c1 w1 s e H1 H2.
    cbn [ServerFull.main_loop ServerFull.process]. rewrite H1. cbn [is_operational].
    rewrite H2. reflexivity.
  - intros db self q d c f w s Hcl Hst Hdb.
    destruct (execute_query_raises_once db self q d c f w _ Hcl Hst Hdb) as [s' Heq].
    rewrite Heq. do 2 eexists. split; [reflexivity |]. simpl.
    split; [reflexivity |]. rewrite count_connects_app.
    unfold count_connects; simpl; lia.
Qed.

Lemma connectivity_retry_unbounded_witness :
  (exists w',
     ServerFull.process 2 (reliable (flaky_db 2)) sample_args (req "SELECT 1" None false true)
       (sample_session 0 TRANSACTION_STATUS_IDLE) 0 w0
     = LoopDone (Some [[VInt 1]]) (sample_session 1 TRANSACTION_STATUS_IDLE) w' 1 /\
     count_connects (log w') = S (count_connects (log w0))) /\
  (exists c' w',
     ServerFull.process 4 (reliable down_db) sample_args (req "SELECT 1" None false true)
       (sample_session 0 TRANSACTION_STATUS_IDLE) 0 w0
     = LoopOutOfFuel c' w' (0 + 4)) /\
  (exists w',
     ServerFull.main_loop 3 unreachable sample_args
       [Msg (req "SELECT 1" None false true); Msg (req "SELECT 1" None false true)]
       (sample_session 0 TRANSACTION_STATUS_IDLE) [] w0
     = Crashed (OperationalError "could not connect to server") [] w') /\
  (exists s' w',
     execute_query down_db (sample_wrapper TRANSACTION_STATUS_IDLE)
       "SELECT 1" None false true w0
     = (s', w', Err (OperationalError "could not connect to server")) /\
     next_id w' = next_id w0 /\ count_connects (log w') = count_connects (log w0)).
Proof.
  destruct connectivity_retry_unbounded as (Hone & Hall & Hdown & Hexec).
  split; [| split; [| split]].
  - eapply (Hone 0 (reliable (flaky_db 2)) sample_args (req "SELECT 1" None false true)
              (sample_session 0 TRANSACTION_STATUS_IDLE) w0); reflexivity.
  - apply (Hall (reliable down_db) sample_args (req "SELECT 1" None false true)).
    + intro l. reflexivity.
    + intros conn w. do 3 eexists. reflexivity.
  - eexists. eapply (Hdown 2 unreachable sample_args (req "SELECT 1" None false true)
                      [Msg (req "SELECT 1" None false true)]
                      (sample_session 0 TRANSACTION_STATUS_IDLE) [] w0); reflexivity.
  - apply (Hexec down_db (sample_wrapper TRANSACTION_STATUS_IDLE) "SELECT 1" None
             false true w0 "could not connect to server"); reflexivity.
Defined.

End RetryFacts.

Module ExecutionFacts.
Import Server ServerFacts RetryFacts.

(** C5: a statement error is propagated after exactly one execution
    attempt, with no reconnect: in the Service's loop the error leaves
    [process] after one [cursor.execute], with the session count and the
    reconnect counter unchanged; [utils.execute_query] on a healthy
    connection likewise returns the error after one execution. *)
Theorem statement_error_single_attempt :
  (forall fuel db a msg conn k w e,
    db (log w ++ [EvCursor (pg_id conn)]) (query msg) (query_data msg) = Raise e ->
    is_operational e = false ->
    exists c',
      process (S fuel) db a msg conn k w
      = LoopRaised e c'
          {| next_id := next_id w;
             log := log w ++ [EvCursor (pg_id conn);
                              EvExecute (pg_id conn) (query msg) (query_data msg);
                              EvCursorClose (pg_id conn)] |} k) /\
  (forall db (self : ConnWithRecon.t) q d c f w e,
    pg_closed (ConnWithRecon.conn self) = false ->
    pg_status (ConnWithRecon.conn self) = TRANSACTION_STATUS_IDLE ->
    db (log w ++ [EvCursor (pg_id (ConnWithRecon.conn self))]) q d = Raise e ->
    is_operational e = false ->
    exists s',
      execute_query db self q d c f w
      = (s', {| next_id := next_id w;
                log := log w ++ [EvCursor (pg_id (ConnWithRecon.conn self));
                                 EvExecute (pg_id (ConnWithRecon.conn self)) q d] |},
         Err e)).
Proof.
  split.
  - intros fuel db a msg conn k [n l] e Hdb Hop.
    simpl in Hdb. simpl. rewrite Hdb, Hop. unfold emit. simpl.
    rewrite <- ?app_assoc. simpl. eexists. reflexivity.
  - intros db self q d c f w e Hcl Hst Hdb _.
    exact (execute_query_raises_once db self q d c f w e Hcl Hst Hdb).
Qed.

Lemma statement_error_single_attempt_witness :
  (exists c',
     process 3 sample_db sample_args (req "SELEC 1" None false true)
       (sample_session 0 TRANSACTION_STATUS_IDLE) 0 w0
     = LoopRaised (ProgrammingError "syntax error at or near SELEC") c'
         {| next_id := 1;
            log := log w0 ++ [EvCursor 0; EvExecute 0 "SELEC 1" None;
                              EvCursorClose 0] |} 0) /\
  (exists s',
     execute_query sample_db (sample_wrapper TRANSACTION_STATUS_IDLE)
       "SELEC 1" None false true w0
     = (s', {| next_id := 1; log := log w0 ++ [EvCursor 0; EvExecute 0 "SELEC 1" None] |},
        Err (ProgrammingError "syntax error at or near SELEC"))).
Proof.
  destruct statement_error_single_attempt as [Hloop Hexec].
  split.
  - apply (Hloop 2 sample_db sample_args (req "SELEC 1" None false true)
             (sample_session 0 TRANSACTION_STATUS_IDLE) 0 w0); reflexivity.
  - apply (Hexec sample_db (sample_wrapper TRANSACTION_STATUS_IDLE) "SELEC 1" None
             false true w0); reflexivity.
Defined.

End ExecutionFacts.

Module DurabilityFacts.
Import Server ServerFacts.

Definition no_commit (l : list PgEvent) : Prop := forall i, ~ In (EvCommit i) l.

Lemma fold_dstep_no_commit : forall new st,
  no_commit new -> snd (fold_left dstep new st) = snd st.
Proof.
  induction new as [| e new IH]; intros [pending kept] Hno; [reflexivity |].
  simpl. rewrite IH.
  - destruct e; try reflexivity.
    exfalso. apply (Hno id). left. reflexivity.
  - intros i Hin. apply (Hno i). right. exact Hin.
Qed.

Lemma durable_no_commit : forall l new,
  no_commit new -> durable (l ++ new) = durable l.
Proof.
  intros l new Hno. unfold durable.
  rewrite fold_left_app. apply fold_dstep_no_commit. exact Hno.
Qed.

(** With [commit] false, no pass of the loop commits. *)
Lemma process_no_commit :
  forall fuel db a msg conn k w,
  commit msg = false ->
  exists new, log (world_of (process fuel db a msg conn k w)) = log w ++ new /\
              no_commit new.
Proof.
  induction fuel as [| fuel IH]; intros db a msg conn k [n l] Hc.
  - exists []. split; [simpl; rewrite app_nil_r; reflexivity | intros i []].
  - simpl.
    destruct (db (l ++ [EvCursor (pg_id conn)]) (query msg) (query_data msg))
      as [rs | e] eqn:E.
    + rewrite Hc.
      destruct (fetch msg); simpl; unfold emit; simpl; rewrite <- ?app_assoc; simpl;
        (eexists; split; [reflexivity |]);
        intros i Hin; simpl in Hin; intuition discriminate.
    + destruct (is_operational e).
      * edestruct IH as [new [Hlog Hno]]; [exact Hc |].
        rewrite Hlog. simpl. rewrite <- ?app_assoc. simpl.
        eexists; split; [reflexivity |].
        intros i Hin. simpl in Hin.
        destruct Hin as [H | [H | [H | [H | H]]]]; try discriminate H.
        exact (Hno i H).
      * simpl. unfold emit. simpl. rewrite <- ?app_assoc. simpl.
        eexists; split; [reflexivity |].
        intros i Hin; simpl in Hin; intuition discriminate.
Qed.

(** The last pass of a completed request with [commit] false. *)
Lemma process_done_rollback :
  forall fuel db a msg conn k w r c' w' k',
  commit msg = false ->
  process fuel db a msg conn k w = LoopDone r c' w' k' ->
  exists pre,
    log w' = log w ++ pre ++ [EvRollback (pg_id c'); EvCursorClose (pg_id c')] /\
    In (EvExecute (pg_id c') (query msg) (query_data msg)) pre.
Proof.
  induction fuel as [| fuel IH]; intros db a msg conn k [n l] r c' w' k' Hc H.
  - discriminate H.
  - simpl in H.
    destruct (db (l ++ [EvCursor (pg_id conn)]) (query msg) (query_data msg))
      as [rs | e] eqn:E.
    + rewrite Hc in H.
      destruct (fetch msg); simpl in H; injection H as <- <- <- <-;
        unfold emit; simpl; rewrite <- ?app_assoc; simpl.
      * exists [EvCursor (pg_id conn);
                EvExecute (pg_id conn) (query msg) (query_data msg);
                EvFetchall (pg_id conn)].
        split; [reflexivity | simpl; auto].
      * exists [EvCursor (pg_id conn);
                EvExecute (pg_id conn) (query msg) (query_data msg)].
        split; [reflexivity | simpl; auto].
    + destruct (is_operational e).
      * edestruct IH as [pre [Hlog Hin]]; [exact Hc | exact H |].
        rewrite Hlog. simpl.
        exists ([EvCursor (pg_id conn);
                 EvExecute (pg_id conn) (query msg) (query_data msg);
                 EvCursorClose (pg_id conn); EvConnect n a] ++ pre).
        split; [rewrite <- ?app_assoc; reflexivity |].
        apply in_or_app. right. exact Hin.
      * discriminate H.
Qed.

(** C9: for a request whose [commit] flag is false, the Service never
    commits, so what the store keeps is unchanged however the request
    ends; and when the request completes, the last operations on its
    session are a rollback (then the cursor's close) after the statement
    was executed on that session. *)
Theorem no_commit_request_rolled_back :
  forall fuel db a msg conn k w,
  commit msg = false ->
  durable (log (world_of (process fuel db a msg conn k w))) = durable (log w) /\
  (forall r c' w' k',
    process fuel db a msg conn k w = LoopDone r c' w' k' ->
    exists pre,
      log w' = log w ++ pre ++ [EvRollback (pg_id c'); EvCursorClose (pg_id c')] /\
      In (EvExecute (pg_id c') (query msg) (query_data msg)) pre).
Proof.
  intros fuel db a msg conn k w Hc. split.
  - destruct (process_no_commit fuel db a msg conn k w Hc) as [new [Hlog Hno]].
    rewrite Hlog. apply durable_no_commit. exact Hno.
  - intros r c' w' k' H. exact (process_done_rollback fuel db a msg conn k w r c' w' k' Hc H).
Qed.

Lemma no_commit_request_rolled_back_witness :
  durable (log (world_of (process 3 sample_db sample_args
                            (req "INSERT INTO spend_log VALUES (1)" None false false)
                            (sample_session 0 TRANSACTION_STATUS_IDLE) 0 w0)))
  = durable (log w0).
Proof.
  apply (no_commit_request_rolled_back 3 sample_db sample_args
           (req "INSERT INTO spend_log VALUES (1)" None false false)
           (sample_session 0 TRANSACTION_STATUS_IDLE) 0 w0).
  reflexivity.
Defined.

End DurabilityFacts.

Module InjectionFacts.
Import ServerFacts.

Definition executed_log (o : ConnWithRecon.t * World * PyResult (option (list Row)))
  : list PgEvent :=
  log (snd (fst o)).

(** C4 (code bug): [fetch_txns] formats the category into the statement
    text, so two calls that differ only in the category send two different
    statements, the value quoted inside the text; its sibling [get_amount]
    binds the category as a parameter and sends the same text for every
    category. *)
Theorem fetch_txns_statement_depends_on_category :
  In (EvExecute 0 (fetch_txns_query (Some "Rent") 8) None)
     (executed_log (fetch_txns sample_db (sample_wrapper TRANSACTION_STATUS_IDLE)
                      (Some "Rent") 8 w0)) /\
  In (EvExecute 0 (fetch_txns_query (Some "Other") 8) None)
     (executed_log (fetch_txns sample_db (sample_wrapper TRANSACTION_STATUS_IDLE)
                      (Some "Other") 8 w0)) /\
  fetch_txns_query (Some "Rent") 8 <> fetch_txns_query (Some "Other") 8 /\
  fetch_txns_query (Some "Rent") 8
  = (nl ++ "    SELECT tx_timestamp, amount, notes" ++ nl ++
     "    FROM spend_log" ++ nl ++ "    WHERE category LIKE " ++
     "'Rent'" ++
     nl ++ "    ORDER BY tx_timestamp DESC" ++ nl ++ "    LIMIT 8;" ++ nl ++ "    ")%string /\
  In (EvExecute 0 get_amount_query (Some [("category", VStr "Rent")]))
     (executed_log (get_amount_spend sample_db (sample_wrapper TRANSACTION_STATUS_IDLE)
                      "Rent" w0)) /\
  In (EvExecute 0 get_amount_query (Some [("category", VStr "Other")]))
     (executed_log (get_amount_spend sample_db (sample_wrapper TRANSACTION_STATUS_IDLE)
                      "Other" w0)).
Proof.
  split; [vm_compute; auto 10 |].
  split; [vm_compute; auto 10 |].
  split; [vm_compute; intro H; discriminate H |].
  split; [reflexivity |].
  split; vm_compute; auto 10.
Qed.

End InjectionFacts.

Module ClientFacts.
Import Client.

(** The resources of a lone client [sock] once it has been closed. *)
Definition all_released (sock : nat) : Resources :=
  {| open_sockets := []; ctx_closed := true;
     releases := [SocketClosed sock; CtxTerminated] |}.

Lemma close_lone : forall sock,
  close sock (clients [sock]) = Returns (all_released sock).
Proof.
  intro sock. unfold close, socket_close, clients. simpl.
  rewrite Nat.eqb_refl. reflexivity.
Qed.

Lemma close_released : forall sock x,
  close x (all_released sock) = Returns (all_released sock).
Proof. intros sock x. reflexivity. Qed.

Lemma existsb_filter_neq : forall x sock l,
  existsb (Nat.eqb x) (filter (fun y => negb (Nat.eqb y sock)) l)
  = if Nat.eqb x sock then false else existsb (Nat.eqb x) l.
Proof.
  intros x sock l. induction l as [| y l IH]; simpl.
  - destruct (Nat.eqb x sock); reflexivity.
  - destruct (Nat.eqb y sock) eqn:E; simpl.
    + apply Nat.eqb_eq in E. subst y. rewrite IH.
      destruct (Nat.eqb x sock); reflexivity.
    + rewrite IH. destruct (Nat.eqb x sock) eqn:F; [| reflexivity].
      apply Nat.eqb_eq in F. subst x. rewrite Nat.eqb_sym, E. reflexivity.
Qed.

Lemma filter_not_in : forall sock l,
  ~ In sock l -> filter (fun y => negb (Nat.eqb y sock)) l = l.
Proof.
  intros sock l. induction l as [| y l IH]; intro H; [reflexivity |].
  simpl. destruct (Nat.eqb y sock) eqn:E.
  - apply Nat.eqb_eq in E. subst y. exfalso. apply H. left. reflexivity.
  - simpl. rewrite IH; [reflexivity |]. intro Hin. apply H. right. exact Hin.
Qed.

(** Each socket is released at most once, counting the one still open;
    the context is terminated exactly when it is marked closed. *)
Definition inv (r : Resources) : Prop :=
  (forall x, socket_releases x (releases r)
             + (if existsb (Nat.eqb x) (open_sockets r) then 1 else 0) <= 1) /\
  ctx_terminations (releases r) = (if ctx_closed r then 1 else 0).

Lemma socket_releases_app : forall x l1 l2,
  socket_releases x (l1 ++ l2) = socket_releases x l1 + socket_releases x l2.
Proof. intros. unfold socket_releases. rewrite filter_app, length_app. reflexivity. Qed.

Lemma ctx_terminations_app : forall l1 l2,
  ctx_terminations (l1 ++ l2) = ctx_terminations l1 + ctx_terminations l2.
Proof. intros. unfold ctx_terminations. rewrite filter_app, length_app. reflexivity. Qed.

Lemma inv_close : forall sock r, inv r -> inv (resources_of (close sock r)).
Proof.
  intros sock [op cc rel] [Hs Hc]. simpl in *.
  unfold inv, close, socket_close. simpl.
  destruct (existsb (Nat.eqb sock) op) eqn:E.
  - assert (Hs' : forall x,
              socket_releases x (rel ++ [SocketClosed sock])
              + (if existsb (Nat.eqb x) (filter (fun y => negb (Nat.eqb y sock)) op)
                 then 1 else 0) <= 1).
    { intro x. rewrite socket_releases_app, existsb_filter_neq.
      specialize (Hs x). unfold socket_releases at 2. simpl.
      destruct (Nat.eqb x sock) eqn:F; simpl.
      - rewrite Nat.eqb_sym in F. rewrite F in *. apply Nat.eqb_eq in F. subst.
        rewrite E in Hs. simpl. lia.
      - rewrite Nat.eqb_sym in F. rewrite F. simpl. lia. }
    assert (Hc' : ctx_terminations (rel ++ [SocketClosed sock])
                  = if cc then 1 else 0).
    { rewrite ctx_terminations_app, Hc. destruct cc; reflexivity. }
    unfold ctx_term. simpl. destruct cc.
    + split; assumption.
    + destruct (filter (fun y => negb (Nat.eqb y sock)) op) as [| o os] eqn:Eo.
      * cbn [resources_of releases open_sockets ctx_closed existsb]. split.
        -- intro x. specialize (Hs' x). simpl in Hs'.
           rewrite socket_releases_app. unfold socket_releases at 2. simpl. lia.
        -- rewrite ctx_terminations_app, Hc'. reflexivity.
      * simpl. split; assumption.
  - unfold ctx_term. simpl. destruct cc.
    + split; assumption.
    + destruct op as [| o os].
      * cbn [resources_of releases open_sockets ctx_closed existsb]. split.
        -- intro x. specialize (Hs x). simpl in Hs.
           rewrite socket_releases_app. unfold socket_releases at 2. simpl. lia.
        -- rewrite ctx_terminations_app, Hc. reflexivity.
      * simpl. split; assumption.
Qed.

Lemma inv_lifetime : forall evs r, inv r -> inv (resources_of (lifetime evs r)).
Proof.
  induction evs as [| e evs IH]; intros r H; [exact H |].
  destruct e as [sock | sock |]; simpl; [| unfold __del__ | exact H];
    pose proof (inv_close sock r H) as H1;
    destruct (close sock r) as [r1 | r1]; simpl in *; auto.
Qed.

(** C8 (as stated, refuted): a process that ends abruptly releases
    nothing; and [start_bot]'s cleanup of its three clients blocks in the
    first client's [ctx.term()], since the shared context still has the
    other two sockets open: those are never released. *)
Lemma client_release_counterexample :
  socket_releases 0 (releases (resources_of (lifetime [AbruptExit] (clients [0])))) = 0 /\
  lifetime (cleanup [0; 1; 2] ++ map Finalize [0; 1; 2]) (clients [0; 1; 2])
  = BlocksInTerm {| open_sockets := [1; 2]; ctx_closed := false;
                    releases := [SocketClosed 0] |}.
Proof. split; reflexivity. Qed.

(** C8 (amended): [Client.close()] closes the client's socket, then
    terminates the process's zmq context, which all clients share;
    closing a closed socket or terminating a terminated context does
    nothing.  (1) Whatever happens to the clients, no socket is released
    twice and the context is not terminated twice.  (2) A lone client is
    released exactly once (its socket and the context) by any non-empty
    sequence of [close()] calls, explicit or from [__del__].  (3) A
    process that ends abruptly before any [close()] releases nothing. *)
Theorem client_release_count :
  (forall evs socks x,
     socket_releases x (releases (resources_of (lifetime evs (clients socks)))) <= 1 /\
     ctx_terminations (releases (resources_of (lifetime evs (clients socks)))) <= 1) /\
  (forall sock evs,
     evs <> [] ->
     Forall (fun e => e = ExplicitClose sock \/ e = Finalize sock) evs ->
     lifetime evs (clients [sock]) = Returns (all_released sock)) /\
  (forall socks rest,
     lifetime (AbruptExit :: rest) (clients socks) = Returns (clients socks)).
Proof.
  split; [| split].
  - intros evs socks x.
    assert (H0 : inv (clients socks)).
    { split; [intro y; simpl; destruct (existsb (Nat.eqb y) socks); simpl; lia
             | reflexivity]. }
    destruct (inv_lifetime evs _ H0) as [Hs Hc]. split.
    + specialize (Hs x). lia.
    + rewrite Hc. destruct (ctx_closed _); lia.
  - intros sock [| e evs] Hne Hall; [contradiction Hne; reflexivity |].
    inversion Hall as [| e' evs' He Hrest]; subst.
    assert (Hrel : forall evs, Forall (fun e => e = ExplicitClose sock \/ e = Finalize sock) evs ->
                   lifetime evs (all_released sock) = Returns (all_released sock)).
    { induction evs0 as [| e0 evs0 IH]; intro Hf; [reflexivity |].
      inversion Hf as [| e1 evs1 He0 Hr0]; subst.
      destruct He0 as [-> | ->]; cbn [lifetime]; [| unfold __del__];
        rewrite close_released; apply IH; exact Hr0. }
    destruct He as [-> | ->]; cbn [lifetime]; [| unfold __del__];
      rewrite close_lone; apply Hrel; exact Hrest.
  - intros socks rest. reflexivity.
Qed.

Lemma client_release_count_witness :
  lifetime [ExplicitClose 0; Finalize 0] (clients [0]) = Returns (all_released 0).
Proof.
  destruct client_release_count as (_ & H2 & _).
  apply (H2 0 [ExplicitClose 0; Finalize 0]).
  - discriminate.
  - constructor; [left; reflexivity |].
    constructor; [right; reflexivity | constructor].
Defined.

End ClientFacts.

Module AccountFacts.
Import AccountManagement.

Definition sample_users : UsersTable := [(42, "M")].

Definition sample_handler : Handler := fun _ => ([ReplyText "menu"], NextState "TASK").

Definition sample_update (i : nat) : Update :=
  {| effective_user := {| id := i; name := "lance" |} |}.

(** C10: the wrapper runs the handler exactly when [validate_id] holds
    for the sender; otherwise its outcome does not depend on the handler
    (the handler is not run), it replies with the access-denied text and
    returns [ConversationHandler.END]. *)
Theorem check_sender_gates_handler :
  forall report DEV_CHATID users (func : Handler) (update : Update),
  (validate_id users (id (effective_user update)) = true ->
     check_sender report DEV_CHATID users func update = func update) /\
  (validate_id users (id (effective_user update)) = false ->
     (forall g : Handler,
        check_sender report DEV_CHATID users g update
        = check_sender report DEV_CHATID users func update) /\
     In (ReplyText denied_text) (fst (check_sender report DEV_CHATID users func update)) /\
     snd (check_sender report DEV_CHATID users func update) = END).
Proof.
  intros report dev users func update.
  unfold check_sender. split.
  - intro H. rewrite H. reflexivity.
  - intro H. rewrite H. split; [reflexivity |]. split; [simpl; auto | reflexivity].
Qed.

Lemma check_sender_gates_handler_witness :
  check_sender true 7 sample_users sample_handler (sample_update 42)
  = sample_handler (sample_update 42) /\
  snd (check_sender true 7 sample_users sample_handler (sample_update 5)) = END.
Proof.
  split.
  - apply (proj1 (check_sender_gates_handler true 7 sample_users sample_handler
                    (sample_update 42))).
    reflexivity.
  - apply (proj2 (check_sender_gates_handler true 7 sample_users sample_handler
                    (sample_update 5))).
    reflexivity.
Defined.

End AccountFacts.

(* ------------------------------------------------------------------ *)
(** ** [gen_keyboard] *)

Module KeyboardFacts.
Open Scope list_scope.

Section Loop.
Variable A : Type.
Variable len : A -> nat.

Lemma concat_loop : forall items c m kb cur,
  List.concat (gen_keyboard_loop len c m items kb cur) = (List.concat kb ++ cur ++ items)%list.
Proof.
  induction items as [| x rest IH]; intros c m kb cur; simpl.
  - destruct cur as [| y ys]; simpl.
    + rewrite !app_nil_r. reflexivity.
    + rewrite List.concat_app. simpl. rewrite app_nil_r. reflexivity.
  - destruct (Nat.leb c (List.length cur) || Nat.leb m (sum_len len (cur ++ [x]))).
    + rewrite IH, List.concat_app. simpl. rewrite app_nil_r, <- !app_assoc. reflexivity.
    + rewrite IH, <- !app_assoc. reflexivity.
Qed.

Lemma effective_columns_pos : forall c m, Nat.leb (effective_columns c m) 0 = false.
Proof.
  intros [c |] [m |]; unfold effective_columns;
    try (destruct (Nat.eqb c 0) eqn:E; [reflexivity | apply Nat.eqb_neq in E]);
    try reflexivity; apply Nat.leb_gt; lia.
Qed.

Lemma columns_loop : forall items c m kb cur,
  0 < c ->
  Forall (fun r => List.length r <= c) kb -> List.length cur <= c ->
  Forall (fun r => List.length r <= c) (gen_keyboard_loop len c m items kb cur).
Proof.
  induction items as [| x rest IH]; intros c m kb cur Hc Hkb Hcur; simpl.
  - destruct cur; [assumption |].
    apply Forall_app; split; [assumption | constructor; [assumption | constructor]].
  - destruct (Nat.leb c (List.length cur)) eqn:E1; simpl.
    + apply IH; [assumption | | simpl; lia].
      apply Forall_app; split; [assumption | constructor; [assumption | constructor]].
    + apply Nat.leb_gt in E1.
      destruct (Nat.leb m (sum_len len (cur ++ [x]))).
      * apply IH; [assumption | | simpl; lia].
        apply Forall_app; split; [assumption | constructor; [assumption | constructor]].
      * apply IH; [assumption | assumption |].
        rewrite length_app. simpl. lia.
Qed.

Lemma chars_loop : forall items c m kb cur,
  Forall (fun r => 2 <= List.length r -> sum_len len r < m) kb ->
  (2 <= List.length cur -> sum_len len cur < m) ->
  Forall (fun r => 2 <= List.length r -> sum_len len r < m)
    (gen_keyboard_loop len c m items kb cur).
Proof.
  induction items as [| x rest IH]; intros c m kb cur Hkb Hcur; simpl.
  - destruct cur; [assumption |].
    apply Forall_app; split; [assumption | constructor; [assumption | constructor]].
  - destruct (Nat.leb c (List.length cur) || Nat.leb m (sum_len len (cur ++ [x])))
      eqn:E.
    + apply IH; [| simpl; lia].
      apply Forall_app; split; [assumption | constructor; [assumption | constructor]].
    + apply orb_false_iff in E. destruct E as [_ E]. apply Nat.leb_gt in E.
      apply IH; [assumption | intros _; assumption].
Qed.

(** Once the current row is non-empty, the loop only appends non-empty rows. *)
Lemma nonempty_loop : forall items c m kb cur,
  cur <> [] ->
  exists R, gen_keyboard_loop len c m items kb cur = (kb ++ R)%list /\ Forall (fun r => r <> []) R.
Proof.
  induction items as [| x rest IH]; intros c m kb cur Hcur; simpl.
  - destruct cur as [| y ys]; [congruence |].
    exists [y :: ys]. split; [reflexivity | constructor; [assumption | constructor]].
  - destruct (Nat.leb c (List.length cur) || Nat.leb m (sum_len len (cur ++ [x]))).
    + destruct (IH c m (kb ++ [cur]) [x]) as [R [HR HF]]; [discriminate |].
      exists (cur :: R). rewrite HR, <- app_assoc. split; [reflexivity |].
      constructor; assumption.
    + apply IH. destruct cur; discriminate.
Qed.

End Loop.

(** X1: flattening the keyboard gives back the items, in order. *)
Theorem gen_keyboard_flatten : forall (A : Type) (len : A -> nat) items columns max_char_len,
  List.concat (gen_keyboard len items columns max_char_len) = items.
Proof.
  intros. unfold gen_keyboard. rewrite concat_loop. reflexivity.
Qed.

(** X3: a row of two or more items stays under [max_char_len] characters. *)
Theorem gen_keyboard_row_chars : forall (A : Type) (len : A -> nat) items columns m,
  0 < m ->
  Forall (fun r => 2 <= List.length r -> sum_len len r < m)
    (gen_keyboard len items columns (Some m)).
Proof.
  intros A len items c m Hm. unfold gen_keyboard.
  assert (E : effective_max (Some m) = m).
  { unfold effective_max. destruct (Nat.eqb m 0) eqn:E; [apply Nat.eqb_eq in E; lia |].
    reflexivity. }
  rewrite E. apply chars_loop; [constructor | simpl; lia].
Qed.

Lemma gen_keyboard_row_chars_witness :
  0 < 6 /\
  Forall (fun r => 2 <= List.length r -> sum_len String.length r < 6)
    (gen_keyboard String.length ["ab"; "cd"; "efg"] None (Some 6)).
Proof.
  split; [lia |]. apply (gen_keyboard_row_chars string String.length). lia.
Defined.

(** X5: called with neither [columns] nor [max_char_len], the keyboard has
    one item per row, provided the first item is under 99999 characters. *)
Theorem gen_keyboard_default_one_per_row : forall (A : Type) (len : A -> nat) x xs,
  len x < 99999 ->
  gen_keyboard len (x :: xs) None None = map (fun y => [y]) (x :: xs).
Proof.
  intros A len x xs H. unfold gen_keyboard, effective_columns, effective_max.
  revert H. generalize 99999 as m. intros m H.
  assert (Hl : forall ys kb y,
            gen_keyboard_loop len 1 m ys kb [y] = (kb ++ map (fun z => [z]) (y :: ys))%list).
  { induction ys as [| z zs IH]; intros kb y; simpl; [reflexivity |].
    rewrite IH. rewrite <- app_assoc. reflexivity. }
  simpl. rewrite Nat.add_0_r.
  replace (Nat.leb m (len x)) with false by (symmetry; apply Nat.leb_gt; lia).
  apply Hl.
Qed.

Lemma gen_keyboard_default_one_per_row_witness :
  String.length "Log Expense" < 99999 /\
  gen_keyboard String.length ["Log Expense"; "Log Gift"] None None
  = [["Log Expense"]; ["Log Gift"]].
Proof.
  assert (H : String.length "Log Expense" < 99999) by (apply Nat.ltb_lt; vm_compute; reflexivity).
  split; [exact H |].
  apply (gen_keyboard_default_one_per_row string String.length "Log Expense" ["Log Gift"]).
  exact H.
Defined.

End KeyboardFacts.

(* ------------------------------------------------------------------ *)
(** ** The health check and [execute_query] *)

Module SessionFacts.
Import ConnWithRecon.

(** After the health check the session is open and idle, and the
    initialization parameters are kept. *)
Lemma health_check_post : forall self w,
  let '(s1, w1) := health_check self w in
  pg_closed (conn s1) = false /\
  pg_status (conn s1) = TRANSACTION_STATUS_IDLE /\
  init_args s1 = init_args self /\ init_kwargs s1 = init_kwargs self.
Proof.
  intros [[i a cl st] ia ik] w. unfold health_check. simpl.
  destruct cl; simpl; [auto |].
  destruct st; simpl; auto.
Qed.

Lemma healthy_noop : forall s w,
  pg_closed (conn s) = false ->
  pg_status (conn s) = TRANSACTION_STATUS_IDLE ->
  health_check s w = (s, w).
Proof.
  intros s w H1 H2. unfold health_check. rewrite H1, H2. reflexivity.
Qed.

(* The health check's postcondition. *)
Lemma hc_open_idle : forall self w,
  pg_closed (conn (fst (health_check self w))) = false /\
  pg_status (conn (fst (health_check self w))) = TRANSACTION_STATUS_IDLE /\
  init_params (fst (health_check self w)) = init_params self.
Proof.
  intros self w. pose proof (health_check_post self w) as H.
  destruct (health_check self w) as [s1 w1]. simpl.
  destruct H as (H1 & H2 & H3 & H4). unfold init_params. rewrite H3, H4. auto.
Qed.

(** X7: the health check is idempotent: a second check right after the
    first changes nothing. *)
Theorem health_check_idempotent : forall self w,
  health_check (fst (health_check self w)) (snd (health_check self w))
  = health_check self w.
Proof.
  intros self w. pose proof (health_check_post self w) as H.
  destruct (health_check self w) as [s1 w1]. destruct H as (H1 & H2 & _).
  apply healthy_noop; assumption.
Qed.

(* [execute_query] runs after the health check. *)
Lemma eq_after_hc : forall db self q d c f w,
  execute_query db self q d c f w
  = execute_query db (fst (health_check self w)) q d c f (snd (health_check self w)).
Proof.
  intros db self q d c f w. pose proof (health_check_post self w) as H.
  unfold execute_query, __getattr__.
  destruct (health_check self w) as [s1 w1]. destruct H as (H1 & H2 & _).
  simpl. rewrite (healthy_noop s1 w1 H1 H2). reflexivity.
Qed.

(* [execute_query] on an open idle connection. *)
Lemma healthy_rows : forall db s q d c f w rs,
  pg_closed (conn s) = false ->
  pg_status (conn s) = TRANSACTION_STATUS_IDLE ->
  db (log w ++ [EvCursor (pg_id (conn s))])%list q d = Rows rs ->
  exists s',
    execute_query db s q d c f w
    = (s', {| next_id := next_id w;
              log := (log w ++ [EvCursor (pg_id (conn s)); EvExecute (pg_id (conn s)) q d]
                      ++ (if f then [EvFetchall (pg_id (conn s))] else [])
                      ++ [EvCursorClose (pg_id (conn s))]
                      ++ (if c then [EvCommit (pg_id (conn s))] else []))%list |},
       Ok (if f then Some rs else None)) /\
    pg_id (conn s') = pg_id (conn s) /\
    pg_closed (conn s') = false /\
    pg_status (conn s') = (if c then TRANSACTION_STATUS_IDLE
                           else TRANSACTION_STATUS_INTRANS) /\
    init_params s' = init_params s.
Proof.
  intros db [[i a cl st] ia ik] q d c f [n l] rs H1 H2 Hdb. simpl in *. subst.
  unfold execute_query, __getattr__, health_check. simpl.
  unfold pg_execute, emit. simpl. rewrite Hdb.
  destruct f, c; simpl; unfold ConnWithRecon.commit, pg_commit, emit; simpl;
    eexists; (split; [rewrite <- ?app_assoc; reflexivity |]); simpl; auto.
Qed.

(** X10: a statement run without [commit] leaves its transaction open, and
    the next call on the same wrapper first rolls it back: the next event
    after the first call is a rollback of that session. *)
Theorem uncommitted_rolled_back_by_next_call :
  forall db s q d f w rs s1 w1 r q2 d2 c2 f2,
  pg_closed (conn s) = false ->
  pg_status (conn s) = TRANSACTION_STATUS_IDLE ->
  db (log w ++ [EvCursor (pg_id (conn s))])%list q d = Rows rs ->
  execute_query db s q d false f w = (s1, w1, r) ->
  exists rest,
    log (snd (fst (execute_query db s1 q2 d2 c2 f2 w1)))
    = (log w1 ++ EvRollback (pg_id (conn s)) :: rest)%list.
Proof.
  intros db s q d f w rs s1 w1 r q2 d2 c2 f2 H1 H2 Hdb He.
  destruct (healthy_rows db s q d false f w rs H1 H2 Hdb)
    as (s' & E & Hid & Hcl & Hst & _).
  rewrite E in He. injection He as Hs _ _. subst s1. clear E.
  destruct s' as [[i a cl st] ia ik]. simpl in *. subst. destruct w1 as [n l].
  unfold execute_query at 1. unfold __getattr__, health_check. simpl.
  unfold pg_execute, emit. simpl.
  destruct (db _ q2 d2) as [rs2 | e]; simpl;
    [destruct f2, c2 | ]; simpl; unfold ConnWithRecon.commit, pg_commit, emit; simpl;
    rewrite <- ?app_assoc; simpl; eexists; reflexivity.
Qed.

Lemma uncommitted_rolled_back_by_next_call_witness :
  let s := {| conn := {| pg_id := 0; pg_args := sample_args; pg_closed := false;
                         pg_status := TRANSACTION_STATUS_IDLE |};
              init_args := args sample_args; init_kwargs := kwargs sample_args |} in
  let db : Oracle := fun _ _ _ => Rows [] in
  exists rest,
    log (snd (fst (execute_query db (fst (fst (execute_query db s "SELECT 1" None false false w0)))
                    "SELECT 2" None true false
                    (snd (fst (execute_query db s "SELECT 1" None false false w0))))))
    = (log (snd (fst (execute_query db s "SELECT 1" None false false w0)))
       ++ EvRollback 0 :: rest)%list.
Proof.
  intros s db.
  apply (uncommitted_rolled_back_by_next_call db s "SELECT 1" None false w0 []
           _ _ (snd (execute_query db s "SELECT 1" None false false w0))
           "SELECT 2" None true false);
    reflexivity.
Defined.

End SessionFacts.

(* ------------------------------------------------------------------ *)
(** ** The Service loop and what the store keeps *)

Module LoopFacts.
Import Server ServerFacts DurabilityFacts.

(** X11: when the Service is left waiting, it answered every request it
    received, in one reply each, and no interrupt came. *)
Theorem main_loop_blocked_replies : forall fuel db a inbox conn replies w rs c' w',
  main_loop fuel db a inbox conn replies w = Blocked rs c' w' ->
  ~ In Interrupt inbox /\ List.length rs = List.length replies + List.length inbox.
Proof.
  intros fuel db a. induction inbox as [| [m |] rest IH];
    intros conn replies w rs c' w' H; simpl in H.
  - injection H as <- _ _. split; [auto | simpl; lia].
  - destruct (process fuel db a m conn 0 w) eqn:E; try discriminate.
    destruct (IH _ _ _ _ _ _ H) as [Hn Hl]. rewrite length_app in Hl. simpl in Hl.
    split; [simpl; intros [H' | H']; [discriminate | contradiction] | simpl; lia].
  - discriminate.
Qed.

Lemma main_loop_blocked_replies_witness :
  ~ In Interrupt [Msg (req "SELECT 1" None false true); Msg (req "SELECT 2" None true false)]
  /\ List.length (replies_of (main_loop 3 sample_db sample_args
        [Msg (req "SELECT 1" None false true); Msg (req "SELECT 2" None true false)]
        (fst (psycopg2_connect sample_args empty_world)) []
        (snd (psycopg2_connect sample_args empty_world))))
     = List.length (@nil (option (list Row))) + 2.
Proof.
  eapply (main_loop_blocked_replies 3 sample_db sample_args
            [Msg (req "SELECT 1" None false true); Msg (req "SELECT 2" None true false)]
            (fst (psycopg2_connect sample_args empty_world)) []
            (snd (psycopg2_connect sample_args empty_world))).
  reflexivity.
Defined.

(** X12: the loop handles its inbox one message after the other: once a
    prefix has been answered, the rest is handled from the session and
    replies the prefix left. *)
Theorem main_loop_app : forall fuel db a pre post conn replies w rs c' w',
  main_loop fuel db a pre conn replies w = Blocked rs c' w' ->
  main_loop fuel db a (pre ++ post) conn replies w = main_loop fuel db a post c' rs w'.
Proof.
  intros fuel db a. induction pre as [| [m |] rest IH];
    intros post conn replies w rs c' w' H; simpl in H |- *.
  - injection H as <- <- <-. reflexivity.
  - destruct (process fuel db a m conn 0 w) eqn:E; try discriminate.
    apply IH. exact H.
  - discriminate.
Qed.

Lemma main_loop_app_witness :
  main_loop 3 sample_db sample_args
    ([Msg (req "SELECT 1" None false true)] ++ [Msg (req "SELECT 1" None false true)])
    (fst (psycopg2_connect sample_args empty_world)) []
    (snd (psycopg2_connect sample_args empty_world))
  = main_loop 3 sample_db sample_args [Msg (req "SELECT 1" None false true)]
      (fst (psycopg2_connect sample_args empty_world)) [Some [[VInt 1]]]
      {| next_id := 1;
         log := [EvConnect 0 sample_args; EvCursor 0; EvExecute 0 "SELECT 1" None;
                 EvFetchall 0; EvRollback 0; EvCursorClose 0] |}.
Proof.
  apply (main_loop_app 3 sample_db sample_args [Msg (req "SELECT 1" None false true)]
           [Msg (req "SELECT 1" None false true)]
           (fst (psycopg2_connect sample_args empty_world)) []
           (snd (psycopg2_connect sample_args empty_world))).
  reflexivity.
Defined.

(** X13: nothing after an interrupt is ever handled: the outcome does not
    depend on the messages that follow it. *)
Theorem main_loop_ignores_after_interrupt : forall fuel db a pre post post' conn replies w,
  main_loop fuel db a (pre ++ Interrupt :: post) conn replies w
  = main_loop fuel db a (pre ++ Interrupt :: post') conn replies w.
Proof.
  intros fuel db a. induction pre as [| [m |] rest IH];
    intros post post' conn replies w; simpl; [reflexivity | | reflexivity].
  destruct (process fuel db a m conn 0 w); [apply IH | reflexivity | reflexivity].
Qed.

(** Events that leave the store's transactions alone. *)
Definition neutral (e : PgEvent) : bool :=
  match e with
  | EvConnect _ _ | EvCursor _ | EvFetchall _ | EvCursorClose _ => true
  | _ => false
  end.

Lemma kept_grows : forall l st,
  exists x, snd (fold_left dstep l st) = (snd st ++ x)%list.
Proof.
  induction l as [| e l IH]; intros [p k].
  - exists []. simpl. rewrite app_nil_r. reflexivity.
  - cbn [fold_left]. destruct (IH (dstep (p, k) e)) as [x Hx]. rewrite Hx.
    destruct e; simpl; eexists; rewrite <- ?app_assoc; reflexivity.
Qed.

Lemma fold_neutral : forall mid st,
  forallb neutral mid = true -> fold_left dstep mid st = st.
Proof.
  induction mid as [| e mid IH]; intros [p k] H; [reflexivity |].
  simpl in H. apply andb_true_iff in H as [He H].
  simpl. destruct e; try discriminate He; apply IH; exact H.
Qed.

(** A statement executed on session [i], followed by a commit of [i] with
    only neutral events between, is durable. *)
Lemma durable_after_commit : forall L i q d mid tail,
  forallb neutral mid = true ->
  In (q, d) (durable (L ++ EvExecute i q d :: mid ++ EvCommit i :: tail)%list).
Proof.
  intros L i q d mid tail Hm. unfold durable.
  rewrite fold_left_app. simpl.
  destruct (fold_left dstep L ([], [])) as [p k].
  simpl. rewrite fold_left_app, (fold_neutral mid) by exact Hm. simpl.
  match goal with
  | |- In _ (snd (fold_left dstep tail ?st)) =>
      destruct (kept_grows tail st) as [x Hx]; rewrite Hx
  end.
  simpl. apply in_or_app. left. apply in_or_app. right.
  rewrite filter_app. simpl. rewrite Nat.eqb_refl. rewrite map_app. simpl.
  apply in_or_app. right. left. reflexivity.
Qed.

(** The last pass of a completed request with [commit] true. *)
Lemma process_done_commit :
  forall fuel db a msg conn k w r c' w' k',
  commit msg = true ->
  process fuel db a msg conn k w = LoopDone r c' w' k' ->
  exists pre mid,
    log w' = (pre ++ EvExecute (pg_id c') (query msg) (query_data msg) :: mid ++
              [EvCommit (pg_id c'); EvCursorClose (pg_id c')])%list /\
    forallb neutral mid = true.
Proof.
  induction fuel as [| fuel IH]; intros db a msg conn k [n l] r c' w' k' Hc H.
  - discriminate H.
  - simpl in H.
    destruct (db (l ++ [EvCursor (pg_id conn)])%list (query msg) (query_data msg))
      as [rs | e] eqn:E.
    + rewrite Hc in H. destruct (fetch msg); simpl in H; injection H as <- <- <- <-;
        simpl; unfold emit; simpl; rewrite <- ?app_assoc; simpl.
      * exists (l ++ [EvCursor (pg_id conn)])%list, [EvFetchall (pg_id conn)].
        rewrite <- app_assoc. split; reflexivity.
      * exists (l ++ [EvCursor (pg_id conn)])%list, [].
        rewrite <- app_assoc. split; reflexivity.
    + destruct (is_operational e); [| discriminate H].
      eapply IH; eassumption.
Qed.

(** X14: a request with [commit] true that the Service answered is durable
    in the store. *)
Theorem committed_request_durable :
  forall fuel db a msg conn k w r c' w' k',
  commit msg = true ->
  process fuel db a msg conn k w = LoopDone r c' w' k' ->
  In (query msg, query_data msg) (durable (log w')).
Proof.
  intros fuel db a msg conn k w r c' w' k' Hc H.
  destruct (process_done_commit fuel db a msg conn k w r c' w' k' Hc H)
    as (pre & mid & Hl & Hm).
  rewrite Hl. apply durable_after_commit. exact Hm.
Qed.

Lemma committed_request_durable_witness :
  In ("SELECT 1", None)
     (durable (log (world_of (process 3 (flaky_db 2) sample_args
                                (req "SELECT 1" None true false)
                                (fst (psycopg2_connect sample_args empty_world)) 0
                                (snd (psycopg2_connect sample_args empty_world)))))).
Proof.
  apply (committed_request_durable 3 (flaky_db 2) sample_args (req "SELECT 1" None true false)
           (fst (psycopg2_connect sample_args empty_world)) 0
           (snd (psycopg2_connect sample_args empty_world)) None
           (fst (psycopg2_connect sample_args {| next_id := 1; log := [] |}))
           (world_of (process 3 (flaky_db 2) sample_args (req "SELECT 1" None true false)
                        (fst (psycopg2_connect sample_args empty_world)) 0
                        (snd (psycopg2_connect sample_args empty_world)))) 1);
    [reflexivity | vm_compute; reflexivity].
Defined.

End LoopFacts.

(* ------------------------------------------------------------------ *)
(** ** What [execute_query] makes durable *)

Module CommitFacts.
Import ConnWithRecon SessionFacts LoopFacts DurabilityFacts.

Lemma health_check_no_commit : forall s w,
  exists new, log (snd (health_check s w)) = (log w ++ new)%list /\ no_commit new.
Proof.
  intros [[i a cl st] ia ik] [n l]. unfold health_check, reconnect, psycopg2_connect,
    pg_close, pg_rollback, emit. simpl.
  destruct cl; [| destruct st]; simpl; rewrite <- ?app_assoc; simpl;
    first [ exists []; rewrite app_nil_r; split; [reflexivity | intros j []]
          | eexists; (split; [reflexivity |]); intros j Hj; simpl in Hj;
            intuition discriminate ].
Qed.

Lemma execute_query_unfold_healthy : forall db s q d c f w,
  pg_closed (conn s) = false ->
  pg_status (conn s) = TRANSACTION_STATUS_IDLE ->
  forall e, db (log w ++ [EvCursor (pg_id (conn s))])%list q d = Raise e ->
  snd (execute_query db s q d c f w) = Err e /\
  log (snd (fst (execute_query db s q d c f w)))
  = (log w ++ [EvCursor (pg_id (conn s)); EvExecute (pg_id (conn s)) q d])%list.
Proof.
  intros db [[i a cl st] ia ik] q d c f [n l] H1 H2 e He. simpl in *. subst.
  unfold execute_query, __getattr__, health_check. simpl.
  unfold pg_execute, emit. simpl. rewrite He. simpl. rewrite <- app_assoc. auto.
Qed.

(* A committed [execute_query] is durable. *)
Lemma commit_durable : forall db s q d f w s' w' x,
  execute_query db s q d true f w = (s', w', Ok x) ->
  In (q, d) (durable (log w')).
Proof.
  intros db s q d f w s' w' x H.
  rewrite eq_after_hc in H.
  destruct (hc_open_idle s w) as (H1 & H2 & _).
  set (s1 := fst (health_check s w)) in *. set (w1 := snd (health_check s w)) in *.
  destruct (db (log w1 ++ [EvCursor (pg_id (conn s1))])%list q d) as [rs | e] eqn:E.
  - destruct (healthy_rows db s1 q d true f w1 rs H1 H2 E) as (s'' & Ee & _).
    rewrite Ee in H. injection H as _ <- _. cbn [log].
    assert (Hl : forall L i,
      (L ++ EvCursor i :: EvExecute i q d :: (if f then [EvFetchall i] else [])
         ++ [EvCursorClose i; EvCommit i])%list
      = ((L ++ [EvCursor i]) ++ EvExecute i q d ::
         ((if f then [EvFetchall i] else []) ++ [EvCursorClose i]) ++ EvCommit i :: [])%list)
      by (intros; destruct f; simpl; rewrite <- !app_assoc; reflexivity).
    rewrite Hl. apply durable_after_commit. destruct f; reflexivity.
  - destruct (execute_query_unfold_healthy db s1 q d true f w1 H1 H2 e E) as [Hr _].
    rewrite H in Hr. discriminate Hr.
Qed.

(** X15: when [execute_query] with [commit=True] returns, whatever state the
    connection was in, the statement with its parameters is durable. *)
Theorem execute_query_commit_durable : forall db s q d f w s' w' x,
  execute_query db s q d true f w = (s', w', Ok x) ->
  In (q, d) (durable (log w')).
Proof. exact commit_durable. Qed.

Lemma execute_query_commit_durable_witness :
  In ("INSERT 1", None)
     (durable (log (snd (fst (execute_query (fun _ _ _ => Rows []) (sample_wrapper TRANSACTION_STATUS_UNKNOWN)
                               "INSERT 1" None true false w0))))).
Proof.
  eapply (execute_query_commit_durable (fun _ _ _ => Rows [])
            (sample_wrapper TRANSACTION_STATUS_UNKNOWN) "INSERT 1" None false w0).
  reflexivity.
Defined.

(** X16: [execute_query] with [commit=False] never changes what the store
    keeps, whatever state the connection was in and whatever the server
    answers. *)
Theorem execute_query_no_commit_not_durable : forall db s q d f w,
  durable (log (snd (fst (execute_query db s q d false f w)))) = durable (log w).
Proof.
  intros db s q d f w.
  rewrite eq_after_hc.
  destruct (hc_open_idle s w) as (H1 & H2 & _).
  destruct (health_check_no_commit s w) as (new & Hw & Hn).
  set (s1 := fst (health_check s w)) in *. set (w1 := snd (health_check s w)) in *.
  destruct (db (log w1 ++ [EvCursor (pg_id (conn s1))])%list q d) as [rs | e] eqn:E.
  - destruct (healthy_rows db s1 q d false f w1 rs H1 H2 E) as (s'' & Ee & _).
    rewrite Ee. simpl. rewrite Hw, <- !app_assoc, durable_no_commit; [reflexivity |].
    intros j Hj. apply in_app_or in Hj as [Hj | Hj]; [exact (Hn j Hj) |].
    destruct f; simpl in Hj; intuition discriminate.
  - destruct (execute_query_unfold_healthy db s1 q d false f w1 H1 H2 e E) as [_ Hl].
    rewrite Hl, Hw, <- app_assoc, durable_no_commit; [reflexivity |].
    intros j Hj. apply in_app_or in Hj as [Hj | Hj]; [exact (Hn j Hj) |].
    simpl in Hj; intuition discriminate.
Qed.

End CommitFacts.

(* ------------------------------------------------------------------ *)
(** ** Python dictionaries *)

Module DictFacts.
Import PyDict.

Lemma get_set_eq : forall (V : Type) (d : PyDict.t V) k v, get (set d k v) k = Some v.
Proof.
  intros V d k v. induction d as [| [k' v'] r IH]; simpl.
  - rewrite String.eqb_refl. reflexivity.
  - destruct (String.eqb k k') eqn:E; simpl.
    + rewrite String.eqb_refl. reflexivity.
    + rewrite E. exact IH.
Qed.

Lemma get_set_neq : forall (V : Type) (d : PyDict.t V) k k' v,
  k' <> k -> get (set d k v) k' = get d k'.
Proof.
  intros V d k k' v Hne. induction d as [| [k0 v0] r IH]; simpl.
  - apply String.eqb_neq in Hne. rewrite Hne. reflexivity.
  - destruct (String.eqb k k0) eqn:E; simpl.
    + apply String.eqb_eq in E. subst k0.
      apply String.eqb_neq in Hne. rewrite Hne. reflexivity.
    + destruct (String.eqb k' k0); [reflexivity | exact IH].
Qed.

Lemma set_notin : forall (V : Type) (d : PyDict.t V) k v,
  ~ In k (keys d) -> set d k v = (d ++ [(k, v)])%list.
Proof.
  intros V d k v. induction d as [| [k0 v0] r IH]; intro Hn; simpl; [reflexivity |].
  destruct (String.eqb k k0) eqn:E.
  - apply String.eqb_eq in E. subst k0. exfalso. apply Hn. left. reflexivity.
  - rewrite IH; [reflexivity |]. intro H. apply Hn. right. exact H.
Qed.

Lemma merge_disjoint : forall (V : Type) (b a : PyDict.t V),
  NoDup (keys a ++ keys b) -> merge a b = (a ++ b)%list.
Proof.
  intros V b. induction b as [| [k v] r IH]; intros a Hn.
  - unfold merge. simpl. rewrite app_nil_r. reflexivity.
  - unfold merge. simpl. rewrite set_notin.
    + fold (merge (a ++ [(k, v)])%list r). rewrite IH, <- app_assoc; [reflexivity |].
      unfold keys in *. rewrite map_app, <- app_assoc. exact Hn.
    + intro H. apply NoDup_remove_2 in Hn. apply Hn. apply in_or_app. left. exact H.
Qed.

Lemma get_merge : forall (V : Type) (b a : PyDict.t V) k,
  NoDup (keys b) ->
  get (merge a b) k = match get b k with Some v => Some v | None => get a k end.
Proof.
  intros V b. induction b as [| [k' v'] r IH]; intros a k Hn; [reflexivity |].
  unfold merge. simpl. fold (merge (set a k' v') r).
  inversion Hn as [| x l Hnotin Hr]; subst.
  rewrite IH by exact Hr.
  destruct (String.eqb k k') eqn:E.
  - apply String.eqb_eq in E. subst k'.
    assert (Hg : get r k = None).
    { clear - Hnotin. induction r as [| [k0 v0] r IH]; [reflexivity |].
      simpl. destruct (String.eqb k k0) eqn:E.
      - apply String.eqb_eq in E. subst k0. exfalso. apply Hnotin. left. reflexivity.
      - apply IH. intro H. apply Hnotin. right. exact H. }
    rewrite Hg. apply get_set_eq.
  - destruct (get r k); [reflexivity |].
    apply get_set_neq. intro H. subst k'. rewrite String.eqb_refl in E. discriminate.
Qed.

Lemma forallb_false_exists : forall (X : Type) (f : X -> bool) l,
  forallb f l = false -> exists x, In x l /\ f x = false.
Proof.
  intros X f l. induction l as [| x l IH]; simpl; [discriminate |].
  intro H. destruct (f x) eqn:E.
  - destruct (IH H) as [y [Hy Hf]]. exists y. split; [right |]; assumption.
  - exists x. split; [left; reflexivity | exact E].
Qed.


End DictFacts.

(* ------------------------------------------------------------------ *)
(** ** [update_budget] and [setup_tables] *)

Module BudgetFacts.
Import ConnWithRecon DictFacts.

(** X17: [update_budget] raises its [AssertionError], before touching the
    connection, exactly when some keyword is neither [max_budget] nor
    [max_tx_amount].  [kw] is the [**kwargs] dictionary of a call, so it
    never holds [conn] or [category]: Python binds those keywords to the
    named parameters. *)
Theorem update_budget_assertion : forall db s category kw w,
  ~ In "conn" (PyDict.keys kw) ->
  ~ In "category" (PyDict.keys kw) ->
  update_budget db s category kw w = None <->
  exists k, In k (PyDict.keys kw) /\ k <> "max_budget" /\ k <> "max_tx_amount".
Proof.
  intros db s category kw w _ _. unfold update_budget.
  destruct (forallb allowed_budget_key (PyDict.keys kw)) eqn:E.
  - split.
    + destruct (__getattr__ s "cursor" w) as [[s1 w1] b].
      destruct (pg_execute _ _ _ _ _) as [[c3 w3] o].
      destruct o; [destruct (ConnWithRecon.commit _ _) |]; discriminate.
    + intros (k & Hk & H1 & H2). rewrite forallb_forall in E.
      specialize (E k Hk). unfold allowed_budget_key in E.
      apply orb_true_iff in E as [E | E]; apply String.eqb_eq in E; contradiction.
  - split; [intros _ | reflexivity].
    destruct (forallb_false_exists _ _ _ E) as (k & Hk & Hf).
    exists k. unfold allowed_budget_key in Hf. apply orb_false_iff in Hf as [F1 F2].
    apply String.eqb_neq in F1, F2. auto.
Qed.

Lemma update_budget_assertion_witness :
  update_budget (fun _ _ _ => Rows []) (sample_wrapper TRANSACTION_STATUS_IDLE) "Rent"
    [("max_budget", VInt 900); ("notes", VStr "rent went up")] w0 = None.
Proof.
  apply (proj2 (update_budget_assertion (fun _ _ _ => Rows [])
                  (sample_wrapper TRANSACTION_STATUS_IDLE) "Rent"
                  [("max_budget", VInt 900); ("notes", VStr "rent went up")] w0
                  ltac:(simpl; intuition discriminate)
                  ltac:(simpl; intuition discriminate))).
  exists "notes". split; [simpl; auto | split; discriminate].
Defined.

(** X18: on an open idle connection, an accepted [update_budget] runs one
    statement whose text is built from the keyword names only, binds the
    category and the keyword values as parameters, and commits. *)
Theorem update_budget_binds_values : forall db s category kw w rs,
  forallb allowed_budget_key (PyDict.keys kw) = true ->
  NoDup (PyDict.keys kw) ->
  pg_closed (conn s) = false ->
  pg_status (conn s) = TRANSACTION_STATUS_IDLE ->
  db (log w ++ [EvCursor (pg_id (conn s))])%list (update_budget_query (PyDict.keys kw))
     (Some (("category", VStr category) :: kw)) = Rows rs ->
  exists s',
    update_budget db s category kw w
    = Some (s', {| next_id := next_id w;
                   log := (log w ++
                           [EvCursor (pg_id (conn s));
                            EvExecute (pg_id (conn s)) (update_budget_query (PyDict.keys kw))
                              (Some (("category", VStr category) :: kw));
                            EvCommit (pg_id (conn s))])%list |}, Ok tt).
Proof.
  intros db [[i a cl st] ia ik] category kw [n l] rs Ha Hn H1 H2 Hdb.
  simpl in *. subst.
  assert (Hm : PyDict.merge [("category", VStr category)] kw
               = ("category", VStr category) :: kw).
  { apply merge_disjoint. simpl. constructor; [| exact Hn].
    intro Hin. rewrite forallb_forall in Ha. specialize (Ha _ Hin). discriminate Ha. }
  unfold update_budget. rewrite Ha, Hm.
  unfold __getattr__, health_check. simpl.
  unfold pg_execute, emit. simpl. unfold PyDict.t in *. rewrite Hdb.
  unfold ConnWithRecon.commit, pg_commit, emit. simpl.
  rewrite <- !app_assoc. eexists. reflexivity.
Qed.

Lemma update_budget_binds_values_witness :
  exists s',
    update_budget (fun _ _ _ => Rows []) (sample_wrapper TRANSACTION_STATUS_IDLE) "Rent"
      [("max_budget", VInt 900)] w0
    = Some (s', {| next_id := 1;
                   log := [EvConnect 0 sample_args; EvCursor 0;
                           EvExecute 0 (update_budget_query ["max_budget"])
                             (Some [("category", VStr "Rent"); ("max_budget", VInt 900)]);
                           EvCommit 0] |}, Ok tt).
Proof.
  apply (update_budget_binds_values (fun _ _ _ => Rows [])
           (sample_wrapper TRANSACTION_STATUS_IDLE) "Rent" [("max_budget", VInt 900)] w0 []);
    try reflexivity.
  constructor; [intros [] | constructor].
Defined.

(** X19: each row [setup_tables] inserts binds [max_budget] and [tx_amount]
    from the category's dictionary when given there and [None] otherwise;
    a [max_tx_amount] entry (the name [update_budget] uses) is not bound
    to any placeholder. *)
Theorem budget_row_defaults : forall cat val_dict,
  NoDup (PyDict.keys val_dict) ->
  PyDict.get (budget_row cat val_dict) "category"
    = Some (match PyDict.get val_dict "category" with Some v => v | None => VStr cat end) /\
  PyDict.get (budget_row cat val_dict) "max_budget"
    = Some (match PyDict.get val_dict "max_budget" with Some v => v | None => VNone end) /\
  PyDict.get (budget_row cat val_dict) "tx_amount"
    = Some (match PyDict.get val_dict "tx_amount" with Some v => v | None => VNone end).
Proof.
  intros cat vd Hn. unfold budget_row. rewrite !get_merge by exact Hn.
  split; [| split];
    match goal with |- context [PyDict.get vd ?k] => destruct (PyDict.get vd k) end;
    reflexivity.
Qed.

Lemma budget_row_defaults_witness :
  PyDict.get (budget_row "Rent" [("max_budget", VInt 900); ("max_tx_amount", VInt 50)])
    "tx_amount" = Some VNone.
Proof.
  apply (budget_row_defaults "Rent" [("max_budget", VInt 900); ("max_tx_amount", VInt 50)]).
  constructor; [intros [H | []]; discriminate H | constructor; [intros [] | constructor]].
Defined.

Lemma insert_budgets_ok : forall db budgets c w,
  (forall l q d, exists rs, db l q d = Rows rs) ->
  exists c',
    insert_budgets db c budgets w
    = (c', {| next_id := next_id w;
              log := (log w ++ map (fun cb => EvExecute (pg_id c) insert_budget
                                               (Some (budget_row (fst cb) (snd cb))))
                                   budgets)%list |}, Ok tt) /\
    pg_id c' = pg_id c /\ pg_args c' = pg_args c /\ pg_closed c' = pg_closed c.
Proof.
  intros db budgets. induction budgets as [| [cat vd] rest IH]; intros c [n l] Hdb.
  - exists c. simpl. rewrite app_nil_r. auto.
  - simpl. unfold cur_execute, pg_execute.
    destruct (Hdb (log {| next_id := n; log := l |}) insert_budget
                (Some (budget_row cat vd))) as [rs Hr].
    rewrite Hr.
    match goal with
    | |- context [insert_budgets db ?c1 rest ?w1] =>
        destruct (IH c1 w1 Hdb) as (c' & E & Hi & Ha & Hc); rewrite E
    end.
    exists c'. simpl in *. unfold emit. simpl. rewrite <- app_assoc. auto.
Qed.

(** X20: on an open idle connection and a server that accepts every
    statement, [setup_tables] creates both tables, commits, inserts one
    row per budget category in order (with its defaults filled in) and
    commits again, all on one session. *)
Theorem setup_tables_log : forall db s budgets w,
  pg_closed (conn s) = false ->
  pg_status (conn s) = TRANSACTION_STATUS_IDLE ->
  (forall l q d, exists rs, db l q d = Rows rs) ->
  exists s',
    setup_tables db s budgets w
    = (s', {| next_id := next_id w;
              log := (log w ++
                      [EvCursor (pg_id (conn s));
                       EvExecute (pg_id (conn s)) create_spend_log None;
                       EvCommit (pg_id (conn s));
                       EvExecute (pg_id (conn s)) create_monthly_budgets None] ++
                      map (fun cb => EvExecute (pg_id (conn s)) insert_budget
                                       (Some (budget_row (fst cb) (snd cb)))) budgets ++
                      [EvCommit (pg_id (conn s))])%list |}, Ok tt).
Proof.
  intros db [[i a cl st] ia ik] budgets [n l] H1 H2 Hdb. simpl in *. subst.
  unfold setup_tables, __getattr__, health_check. simpl.
  unfold cur_execute, pg_execute, emit. simpl.
  destruct (Hdb (l ++ [EvCursor i])%list create_spend_log None) as [rs1 E1]. rewrite E1.
  unfold ConnWithRecon.commit, pg_commit, emit. simpl.
  match goal with
  | |- context [db ?l2 create_monthly_budgets None] =>
      destruct (Hdb l2 create_monthly_budgets None) as [rs2 E2]; rewrite E2
  end.
  match goal with
  | |- context [insert_budgets db ?c5 budgets ?w5] =>
      destruct (insert_budgets_ok db budgets c5 w5 Hdb) as (c6 & E6 & Hi & Ha & Hc);
      rewrite E6
  end.
  simpl in *. unfold ConnWithRecon.commit, pg_commit, emit. simpl.
  rewrite Hi, Ha, Hc. rewrite <- !app_assoc. eexists. reflexivity.
Qed.

Lemma setup_tables_log_witness :
  exists s',
    setup_tables (fun _ _ _ => Rows []) (sample_wrapper TRANSACTION_STATUS_IDLE)
      [("Rent", [("max_budget", VInt 900)])] w0
    = (s', {| next_id := 1;
              log := [EvConnect 0 sample_args; EvCursor 0;
                      EvExecute 0 create_spend_log None; EvCommit 0;
                      EvExecute 0 create_monthly_budgets None;
                      EvExecute 0 insert_budget
                        (Some (budget_row "Rent" [("max_budget", VInt 900)]));
                      EvCommit 0] |}, Ok tt).
Proof.
  apply (setup_tables_log (fun _ _ _ => Rows []) (sample_wrapper TRANSACTION_STATUS_IDLE)
           [("Rent", [("max_budget", VInt 900)])] w0); try reflexivity.
  intros l q d. exists []. reflexivity.
Defined.

End BudgetFacts.

(* ------------------------------------------------------------------ *)
(** ** Reviewing and uploading a gift *)

Module GiftFacts.
Import AccountManagement LogGift ConnWithRecon SessionFacts CommitFacts DictFacts.

(** X21: answering Yes on an open idle connection, with the server accepting
    the INSERT: one statement binding the conversation's data (with the
    timestamp and [username or id] added) is executed and committed,
    [user_data] is cleared and the conversation ends. *)
Theorem upload_gift_yes : forall db s m now line ud w rs,
  text m = YES ->
  pg_closed (conn s) = false ->
  pg_status (conn s) = TRANSACTION_STATUS_IDLE ->
  let data := PyDict.set (PyDict.set ud "tx_timestamp" now) "username"
                (username_or_id (from_user m)) in
  db (log w ++ [EvCursor (pg_id (conn s))])%list insert_gift (Some data) = Rows rs ->
  exists s',
    upload_gift db s m now line ud w
    = (s', {| next_id := next_id w;
              log := (log w ++ [EvCursor (pg_id (conn s));
                                EvExecute (pg_id (conn s)) insert_gift (Some data);
                                EvCursorClose (pg_id (conn s));
                                EvCommit (pg_id (conn s))])%list |},
       [],
       Ok ([ReplyText "Alright. I shall add them to my records. Have a pleasant day."], END)).
Proof.
  intros db s m now line ud w rs Hy H1 H2 data Hdb.
  unfold upload_gift. rewrite Hy. simpl.
  destruct (healthy_rows db s insert_gift (Some data) true false w rs H1 H2 Hdb)
    as (s' & E & _).
  fold data. rewrite E. exists s'. reflexivity.
Qed.

Definition sample_message (t : string) : Message :=
  {| text := t; from_user := {| username := Some "lance"; user_id := 42 |} |}.

Lemma upload_gift_yes_witness :
  exists s',
    upload_gift (fun _ _ _ => Rows []) (sample_wrapper TRANSACTION_STATUS_IDLE)
      (sample_message "Yes") (VInt 0) "Ooooooh, goodie!" [("notes", VStr "cake")] w0
    = (s', {| next_id := 1;
              log := [EvConnect 0 sample_args; EvCursor 0;
                      EvExecute 0 insert_gift
                        (Some [("notes", VStr "cake"); ("tx_timestamp", VInt 0);
                               ("username", VStr "lance")]);
                      EvCursorClose 0; EvCommit 0] |},
       [],
       Ok ([ReplyText "Alright. I shall add them to my records. Have a pleasant day."], END)).
Proof.
  apply (upload_gift_yes (fun _ _ _ => Rows []) (sample_wrapper TRANSACTION_STATUS_IDLE)
           (sample_message "Yes") (VInt 0) "Ooooooh, goodie!" [("notes", VStr "cake")]
           w0 []); reflexivity.
Defined.

(** X22: [upload_gift] clears [user_data] only when the gift record has been
    committed: whatever the state of the connection and the server's
    answers, either [user_data] is kept or the record is durable. *)
Theorem upload_gift_clears_only_when_durable :
  forall db s m now line ud w s' w' ud' r,
  upload_gift db s m now line ud w = (s', w', ud', r) ->
  ud' = ud \/
  (ud' = [] /\ text m = YES /\
   In (insert_gift,
       Some (PyDict.set (PyDict.set ud "tx_timestamp" now) "username"
               (username_or_id (from_user m))))
      (durable (log w'))).
Proof.
  intros db s m now line ud w s' w' ud' r H. unfold upload_gift in H.
  destruct (String.eqb (text m) YES) eqn:Ey.
  - match type of H with
    | context [execute_query db s insert_gift ?d true false w] =>
        destruct (execute_query db s insert_gift d true false w) as [[s1 w1] r1] eqn:Ex
    end.
    destruct r1 as [x | e]; injection H as <- <- <- <-; [right | left; reflexivity].
    split; [reflexivity |]. split; [apply String.eqb_eq; exact Ey |].
    eapply commit_durable. exact Ex.
  - destruct (get_recipient line) as [acts res]. injection H as <- <- <- <-.
    left. reflexivity.
Qed.

Lemma upload_gift_clears_only_when_durable_witness :
  let o := upload_gift (fun _ _ _ => Raise (IntegrityError "null value in column amount"))
             (sample_wrapper TRANSACTION_STATUS_INERROR) (sample_message "Yes") (VInt 0)
             "Ooooooh, goodie!" [("notes", VStr "cake")] w0 in
  snd (fst o) = [("notes", VStr "cake")] \/
  (snd (fst o) = [] /\ text (sample_message "Yes") = YES /\
   In (insert_gift,
       Some (PyDict.set (PyDict.set [("notes", VStr "cake")] "tx_timestamp" (VInt 0))
               "username" (username_or_id (from_user (sample_message "Yes")))))
      (durable (log (snd (fst (fst o)))))).
Proof.
  intro o.
  apply (upload_gift_clears_only_when_durable
           (fun _ _ _ => Raise (IntegrityError "null value in column amount"))
           (sample_wrapper TRANSACTION_STATUS_INERROR) (sample_message "Yes") (VInt 0)
           "Ooooooh, goodie!" [("notes", VStr "cake")] w0
           (fst (fst (fst o))) (snd (fst (fst o))) (snd (fst o)) (snd o)).
  reflexivity.
Defined.


End GiftFacts.

(* ------------------------------------------------------------------ *)
(** ** Landing on the task menu *)

Module CoreFacts.
Import AccountManagement Core.

(** X24: a handler wrapped by [land_to_task_menu] ends the conversation only
    when the handler ends it and the sender fails [validate_id]; any other
    result of the handler is passed through unchanged, and an end for a
    known sender becomes the TASK state. *)
Theorem land_to_task_menu_result : forall DEV_CHATID users func update,
  (snd (land_to_task_menu DEV_CHATID users func update) = END <->
   snd (func update) = END /\ validate_id users (id (effective_user update)) = false) /\
  (forall s, snd (func update) = NextState s ->
     land_to_task_menu DEV_CHATID users func update = func update) /\
  (snd (func update) = END -> validate_id users (id (effective_user update)) = true ->
     snd (land_to_task_menu DEV_CHATID users func update) = NextState "TASK").
Proof.
  intros dev users func update. unfold land_to_task_menu, task_menu, check_sender.
  destruct (func update) as [acts res]. simpl.
  destruct res as [| s]; simpl.
  - destruct (validate_id users (id (effective_user update))); simpl.
    + split; [split; [discriminate | intros [_ H]; discriminate] |].
      split; [intros s H; discriminate | reflexivity].
    + split; [split; [auto | reflexivity] |].
      split; [intros s H; discriminate | intros _ H; discriminate].
  - split; [split; [discriminate | intros [H _]; discriminate] |].
    split; [reflexivity | intro H; discriminate].
Qed.

Definition ending_handler : Handler := fun _ => ([ReplyText "Done."], END).

Lemma land_to_task_menu_result_witness :
  snd (land_to_task_menu 7 [(42, "M")] ending_handler
         {| effective_user := {| id := 42; name := "lance" |} |}) = NextState "TASK".
Proof.
  apply (proj2 (proj2 (land_to_task_menu_result 7 [(42, "M")] ending_handler
                         {| effective_user := {| id := 42; name := "lance" |} |})));
    reflexivity.
Defined.

End CoreFacts.
